(** * Interview screening bot: the session state machine of [src/src/bot.ts]

    A shallow embedding of the class [MyBot]: the per-candidate
    [InterviewState], the dispatcher [processUserMessage] with the stage
    handlers it calls, and the aggregation of [completeInterview].

    The JavaScript runtime is modelled as far as the program uses it:
    strings are sequences of 8-bit characters (the program's own texts are
    ASCII), numbers that are added and divided are binary64 floats
    ([PrimFloat]), [responses] is a finite map from property names to
    JSON values. *)

From Stdlib Require Import ZArith Ascii Floats.PrimFloat Floats.SpecFloat Floats.FloatOps.
From stdpp Require Import gmap strings list pretty.

(** ** The JavaScript operations the bot relies on *)

Module JS.

(** [String.prototype.trim], over the ASCII white space characters
    (TAB, LF, VT, FF, CR, SP). *)
Fixpoint trimStart (s : string) : string :=
  match s with
  | EmptyString => EmptyString
  | String c s' => if Ascii.is_space c then trimStart s' else s
  end.

Fixpoint trimEnd (s : string) : string :=
  match s with
  | EmptyString => EmptyString
  | String c s' =>
      match trimEnd s' with
      | EmptyString => if Ascii.is_space c then EmptyString else String c EmptyString
      | t => String c t
      end
  end.

Definition trim (s : string) : string := trimEnd (trimStart s).

Fixpoint drop (n : nat) (s : string) : string :=
  match n, s with
  | S n', String _ s' => drop n' s'
  | _, _ => s
  end.

(** First occurrence of [pat] in [s]: the text before it and the text
    after it. *)
Fixpoint search (pat s : string) : option (string * string) :=
  if String.prefix pat s then Some (EmptyString, drop (String.length pat) s)
  else
    match s with
    | EmptyString => None
    | String c s' =>
        match search pat s' with
        | Some (before, after) => Some (String c before, after)
        | None => None
        end
    end.

(** The replacement text of [String.prototype.replace] when the pattern
    is a string (no capture groups): [$$], [$&], [$`] and [$'] are
    expanded, every other character is copied. *)
Fixpoint GetSubstitution (matched before after replacement : string) : string :=
  match replacement with
  | EmptyString => EmptyString
  | String c r =>
      match r with
      | String d r' =>
          if bool_decide (c = "$"%char) then
            if bool_decide (d = "$"%char) then
              String "$" (GetSubstitution matched before after r')
            else if bool_decide (d = "&"%char) then
              matched +:+ GetSubstitution matched before after r'
            else if bool_decide (d = "`"%char) then
              before +:+ GetSubstitution matched before after r'
            else if bool_decide (d = "'"%char) then
              after +:+ GetSubstitution matched before after r'
            else String c (GetSubstitution matched before after r)
          else String c (GetSubstitution matched before after r)
      | EmptyString => String c EmptyString
      end
  end.

(** [s.replace(pat, replacement)] with a string pattern: the first
    occurrence only. *)
Definition replace (pat replacement s : string) : string :=
  match search pat s with
  | None => s
  | Some (before, after) =>
      before +:+ GetSubstitution pat before after replacement +:+ after
  end.

(** [s.replace(/c/g, replacement)] for a one-character pattern and a
    replacement without [$]. *)
Fixpoint replaceAll (c : ascii) (replacement : string) (s : string) : string :=
  match s with
  | EmptyString => EmptyString
  | String d s' =>
      if bool_decide (d = c) then replacement +:+ replaceAll c replacement s'
      else String d (replaceAll c replacement s')
  end.

(** [s.replace(/[...]/g, '')] for a character class. *)
Fixpoint removeAll (class : ascii -> bool) (s : string) : string :=
  match s with
  | EmptyString => EmptyString
  | String d s' => if class d then removeAll class s' else String d (removeAll class s')
  end.

Definition upper (c : ascii) : ascii :=
  let n := Ascii.nat_of_ascii c in
  if bool_decide (97 <= n <= 122) then Ascii.ascii_of_nat (n - 32) else c.

Fixpoint toUpperCase (s : string) : string :=
  match s with
  | EmptyString => EmptyString
  | String c s' => String (upper c) (toUpperCase s')
  end.

Fixpoint join (sep : string) (l : list string) : string :=
  match l with
  | [] => EmptyString
  | [x] => x
  | x :: l' => x +:+ sep +:+ join sep l'
  end.

(** [s.split(c)] for a one-character separator. *)
Fixpoint split (c : ascii) (s : string) : list string :=
  match s with
  | EmptyString => [EmptyString]
  | String d s' =>
      if bool_decide (d = c) then EmptyString :: split c s'
      else
        match split c s' with
        | x :: r => String d x :: r
        | [] => [String d EmptyString]
        end
  end.

(** [s.slice(-1)]: the last character, if any. *)
Fixpoint slice_last (s : string) : string :=
  match s with
  | EmptyString => EmptyString
  | String c EmptyString => s
  | String _ s' => slice_last s'
  end.

(** *** Values
    What [JSON.parse] can return, and so what [responses] can hold. A
    number is held by its integer value and prints in decimal, as JS
    prints the integers it represents exactly. A property that is not
    there ([undefined]) is [None] in an [option JsValue]. *)
#[warnings="-register-all"]
Inductive JsValue : Type :=
| JNull
| JBool (b : bool)
| JNum (n : Z)
| JStr (s : string)
| JArr (items : list JsValue)
| JObj (fields : list (string * JsValue)).

(** What a statement or a call does: it completes with a value or it
    throws. The thrown value is never inspected by the bot (it is only
    logged), so it is not kept. *)
Inductive Outcome (A : Type) : Type :=
| Returns (a : A)
| Throws.
Arguments Returns {A} a.
Arguments Throws {A}.

Fixpoint assoc (name : string) (fields : list (string * JsValue)) : option JsValue :=
  match fields with
  | [] => None
  | (k, v) :: rest => if bool_decide (k = name) then Some v else assoc name rest
  end.

(** [ToString]. A primitive prints as itself. An array prints through
    [Array.prototype.join]: its elements in order, separated by commas, a
    [null] element as the empty string. An object goes through
    [OrdinaryToPrimitive]: the method found under [toString] is called
    if it is callable. A parsed object that has no member [toString] of
    its own finds [Object.prototype.toString], which gives
    ["[object Object]"]; a member [toString] of its own is a parsed
    value, so it is not callable, and then neither a member [valueOf] of
    its own nor [Object.prototype.valueOf] (which returns the object)
    gives a primitive: a [TypeError]. *)
Fixpoint ToString (v : JsValue) : Outcome string :=
  match v with
  | JNull => Returns "null"
  | JBool true => Returns "true"
  | JBool false => Returns "false"
  | JNum n => Returns (pretty n)
  | JStr s => Returns s
  | JArr items =>
      match
        (fix elements (l : list JsValue) : Outcome (list string) :=
           match l with
           | [] => Returns []
           | e :: rest =>
               match (match e with JNull => Returns EmptyString | _ => ToString e end) with
               | Returns s =>
                   match elements rest with
                   | Returns ss => Returns (s :: ss)
                   | Throws => Throws
                   end
               | Throws => Throws
               end
           end) items
      with
      | Returns ss => Returns (join "," ss)
      | Throws => Throws
      end
  | JObj fields =>
      match assoc "toString" fields with
      | Some _ => Throws
      | None => Returns "[object Object]"
      end
  end.

(** [`${v}`] for a possibly missing value. *)
Definition template (v : option JsValue) : Outcome string :=
  match v with
  | None => Returns "undefined"
  | Some v => ToString v
  end.

(** [ToBoolean]. *)
Definition truthy (v : JsValue) : bool :=
  match v with
  | JNull => false
  | JBool b => b
  | JNum n => negb (n =? 0)%Z
  | JStr s => negb (bool_decide (s = EmptyString))
  | JArr _ | JObj _ => true
  end.

(** [v || d]. *)
Definition or_else (v : option JsValue) (d : JsValue) : JsValue :=
  match v with
  | Some v => if truthy v then v else d
  | None => d
  end.

(** [v.name] for the property names the bot reads ([Summary], [text],
    ...), which no built-in prototype defines: a [TypeError] on [null],
    the own property of an object, [undefined] on anything else. *)
Definition Get (v : JsValue) (name : string) : Outcome (option JsValue) :=
  match v with
  | JNull => Throws
  | JObj fields => Returns (assoc name fields)
  | _ => Returns None
  end.

(** *** Numbers *)

(** The float nearest to an integer. *)
Definition Z2F (z : Z) : float := SF2Prim (binary_normalize prec emax z 0 false).

Definition digit (c : ascii) : option Z :=
  let n := Z.of_nat (Ascii.nat_of_ascii c) in
  if bool_decide (48 <= n <= 57)%Z then Some (n - 48)%Z
  else if bool_decide (97 <= n <= 122)%Z then Some (n - 87)%Z
  else if bool_decide (65 <= n <= 90)%Z then Some (n - 55)%Z
  else None.

(** The longest prefix of digits of the radix, as an integer; [acc] is
    [None] until a digit has been read. *)
Fixpoint digits (radix : Z) (s : string) (acc : option Z) : option Z :=
  match s with
  | EmptyString => acc
  | String c s' =>
      match digit c with
      | Some d =>
          if (d <? radix)%Z then digits radix s' (Some (radix * default 0 acc + d))%Z
          else acc
      | None => acc
      end
  end.

(** [parseInt(s)] without a radix argument. *)
Definition parseInt_string (s : string) : float :=
  let s1 := trimStart s in
  let '(negative, s2) :=
    match s1 with
    | String c r =>
        if bool_decide (c = "-"%char) then (true, r)
        else if bool_decide (c = "+"%char) then (false, r)
        else (false, s1)
    | EmptyString => (false, s1)
    end in
  let '(radix, s3) :=
    match s2 with
    | String c (String x r) =>
        if bool_decide (c = "0"%char) && (bool_decide (x = "x"%char) || bool_decide (x = "X"%char))
        then (16%Z, r) else (10%Z, s2)
    | _ => (10%Z, s2)
    end in
  match digits radix s3 None with
  | None => nan
  | Some z => if negative then (- Z2F z)%float else Z2F z
  end.

(** [parseInt(v)]: the argument is converted to a string first. *)
Definition parseInt (v : option JsValue) : Outcome float :=
  match template v with
  | Returns s => Returns (parseInt_string s)
  | Throws => Throws
  end.

Definition isNaN (x : float) : bool := is_nan x.

(** [x || 'N/A'] for a number. *)
Definition falsy_number (x : float) : bool := is_nan x || is_zero x.

(** The integer that an integer-valued float holds. *)
Definition F2Z (x : float) : option Z :=
  match Prim2SF x with
  | S754_zero _ => Some 0%Z
  | S754_finite s m e =>
      let a := if (0 <=? e)%Z then Some (Z.pos m * 2 ^ e)%Z
               else if (Z.pos m mod 2 ^ (- e) =? 0)%Z then Some (Z.pos m / 2 ^ (- e))%Z
               else None in
      (fun z => if s then (- z)%Z else z) <$> a
  | _ => None
  end.

Section Number.
(** [Number::toString] for the values that do not print as a plain
    decimal integer (not finite, at least 10^21, or not an integer): a
    function of the ECMAScript runtime, taken as given. *)
Variable Number_toString : float -> string.

(** [`${x}`] for a number. *)
Definition number_template (x : float) : string :=
  match F2Z x with
  | Some z => if (Z.abs z <? 10 ^ 21)%Z then pretty z else Number_toString x
  | None => Number_toString x
  end.

Definition pad_left (width : nat) (s : string) : string :=
  String.string_of_list_ascii (replicate (width - String.length s) "0"%char) +:+ s.

(** The decimal digits of [n] with a point before the last [f]. *)
Definition fixed_digits (n : Z) (f : nat) : string :=
  let m := pretty n in
  match f with
  | 0 => m
  | _ =>
      let m := pad_left (S f) m in
      let k := String.length m in
      String.substring 0 (k - f) m +:+ "." +:+ String.substring (k - f) f m
  end.

(** [x.toFixed(f)]: the integer [n] for which [n / 10^f] is nearest to
    [x], the larger one on a tie, printed with [f] decimals. *)
Definition toFixed (x : float) (f : nat) : string :=
  match Prim2SF x with
  | S754_zero _ => fixed_digits 0 f
  | S754_finite s m e =>
      let big := if (0 <=? e)%Z then (10 ^ 21 <=? Z.pos m * 2 ^ e)%Z
                 else (10 ^ 21 * 2 ^ (- e) <=? Z.pos m)%Z in
      let sign : string := if s then "-" else EmptyString in
      if big then sign +:+ Number_toString (abs x)
      else
        let n := if (0 <=? e)%Z then (Z.pos m * 2 ^ e * 10 ^ Z.of_nat f)%Z
                 else ((2 * (Z.pos m * 10 ^ Z.of_nat f) + 2 ^ (- e)) / (2 * 2 ^ (- e)))%Z in
        sign +:+ fixed_digits n f
  | _ => Number_toString x
  end.
End Number.

End JS.

Export JS.

Global Instance Outcome_ret : MRet Outcome := @Returns.
Global Instance Outcome_bind : MBind Outcome := fun A B f m =>
  match m with
  | Returns a => f a
  | Throws => Throws
  end.

Global Instance Outcome_fmap : FMap Outcome := fun A B f m =>
  match m with
  | Returns a => Returns (f a)
  | Throws => Throws
  end.

(** [Array.prototype.map] with a callback that can throw. *)
Fixpoint map_outcome {A B} (f : A -> Outcome B) (l : list A) : Outcome (list B) :=
  match l with
  | [] => Returns []
  | x :: l' => y ← f x; ys ← map_outcome f l'; Returns (y :: ys)
  end.

Definition nl : string := String "010" EmptyString.

(** ** Data model *)

Inductive Stage : Type :=
| greeting | name_prompt | jd_selection | pre_screen | jd_questions | closing | complete.

Global Instance Stage_eq_dec : EqDecision Stage.
Proof. solve_decision. Defined.

(** The string that the union type's member is at run time. *)
Definition Stage_name (s : Stage) : string :=
  match s with
  | greeting => "greeting"
  | name_prompt => "name_prompt"
  | jd_selection => "jd_selection"
  | pre_screen => "pre_screen"
  | jd_questions => "jd_questions"
  | closing => "closing"
  | complete => "complete"
  end.

Inductive Role : Type := user | assistant.

Record Message : Type := { role : Role; content : string }.

Record InterviewState : Type := {
  candidateName : option string;
  currentStage : Stage;
  jdFileName : option string;
  jdContent : string;
  availableJDs : list string;
  questionCount : nat;
  maxQuestions : nat;
  responses : gmap string JsValue;
  conversationHistory : list Message
}.

(** Assignments to the fields of [state]. *)
Definition set_candidateName (v : string) (s : InterviewState) : InterviewState :=
  {| candidateName := Some v; currentStage := currentStage s; jdFileName := jdFileName s;
     jdContent := jdContent s; availableJDs := availableJDs s;
     questionCount := questionCount s; maxQuestions := maxQuestions s;
     responses := responses s; conversationHistory := conversationHistory s |}.

Definition set_currentStage (v : Stage) (s : InterviewState) : InterviewState :=
  {| candidateName := candidateName s; currentStage := v; jdFileName := jdFileName s;
     jdContent := jdContent s; availableJDs := availableJDs s;
     questionCount := questionCount s; maxQuestions := maxQuestions s;
     responses := responses s; conversationHistory := conversationHistory s |}.

Definition set_jdFileName (v : string) (s : InterviewState) : InterviewState :=
  {| candidateName := candidateName s; currentStage := currentStage s; jdFileName := Some v;
     jdContent := jdContent s; availableJDs := availableJDs s;
     questionCount := questionCount s; maxQuestions := maxQuestions s;
     responses := responses s; conversationHistory := conversationHistory s |}.

Definition set_jdContent (v : string) (s : InterviewState) : InterviewState :=
  {| candidateName := candidateName s; currentStage := currentStage s; jdFileName := jdFileName s;
     jdContent := v; availableJDs := availableJDs s;
     questionCount := questionCount s; maxQuestions := maxQuestions s;
     responses := responses s; conversationHistory := conversationHistory s |}.

Definition set_questionCount (v : nat) (s : InterviewState) : InterviewState :=
  {| candidateName := candidateName s; currentStage := currentStage s; jdFileName := jdFileName s;
     jdContent := jdContent s; availableJDs := availableJDs s;
     questionCount := v; maxQuestions := maxQuestions s;
     responses := responses s; conversationHistory := conversationHistory s |}.

Definition set_responses (v : gmap string JsValue) (s : InterviewState) : InterviewState :=
  {| candidateName := candidateName s; currentStage := currentStage s; jdFileName := jdFileName s;
     jdContent := jdContent s; availableJDs := availableJDs s;
     questionCount := questionCount s; maxQuestions := maxQuestions s;
     responses := v; conversationHistory := conversationHistory s |}.

(** [state.responses[key] = v]. *)
Definition set_response (key : string) (v : JsValue) (s : InterviewState) : InterviewState :=
  set_responses (<[key := v]> (responses s)) s.

(** [state.conversationHistory.push({ role, content })]. *)
Definition push_history (r : Role) (c : string) (s : InterviewState) : InterviewState :=
  {| candidateName := candidateName s; currentStage := currentStage s; jdFileName := jdFileName s;
     jdContent := jdContent s; availableJDs := availableJDs s;
     questionCount := questionCount s; maxQuestions := maxQuestions s;
     responses := responses s;
     conversationHistory := conversationHistory s ++ [{| role := r; content := c |}] |}.

(** An outbound activity of type ['message']. *)
Record Activity : Type := { text : string; speak : option string }.

Global Instance Activity_eq_dec : EqDecision Activity.
Proof. solve_decision. Defined.

(** The part of [context.activity] that the bot reads. *)
Record TurnContext : Type := {
  activity_text : option string;
  from_id : string;
  membersAdded : option (list string);
  recipient_id : string
}.

(** An inbound activity, by the handler that the framework runs for it. *)
Inductive Inbound : Type :=
| MessageActivity (context : TurnContext)
| ConversationUpdate (context : TurnContext).

(** ** The collaborators

    What the services outside the bot answer during one turn. A chat
    completion is given by what [completion.choices[0].message?.content]
    evaluates to: it throws when the request fails or there is no choice,
    and the content can be missing. The reply is not tied to the prompt:
    the backend may answer anything to any request. [delivers n a] tells
    whether the [n]-th call of [context.sendActivity] in the turn, with
    activity [a], succeeds. *)
Record Env : Type := {
  selection_reply : Outcome (option string);
  name_reply : Outcome (option string);
  question_reply : Outcome (option string);
  analysis_reply : Outcome (option string);
  blob_download : string -> Outcome string;
  delivers : nat -> Activity -> bool
}.

(** ** Turns

    While a turn runs, [state] is the object that [interviewStates] holds
    for the sender: every assignment to it is an assignment to the stored
    session. [session] is that object, [registered] tells whether the map
    still holds it ([interviewStates.delete] removes the entry, not the
    object), and [outbox] lists the activities handed to
    [context.sendActivity] so far, in order, delivered or not. *)
Record Turn : Type := {
  session : InterviewState;
  registered : bool;
  outbox : list Activity
}.

(** A piece of the bot's code: it runs against the collaborators and the
    turn, changes the turn, and returns or throws. What was changed before
    a throw stays changed. *)
Definition Handler (A : Type) : Type := Env -> Turn -> Outcome A * Turn.

Global Instance Handler_ret : MRet Handler := fun A a _ t => (Returns a, t).
Global Instance Handler_bind : MBind Handler := fun A B f m env t =>
  match m env t with
  | (Returns a, t') => f a env t'
  | (Throws, t') => (Throws, t')
  end.

(** [try { body } catch (error) { handler }]. *)
Definition try_catch {A} (body handler : Handler A) : Handler A := fun env t =>
  match body env t with
  | (Returns a, t') => (Returns a, t')
  | (Throws, t') => handler env t'
  end.

(** Evaluating an expression over [state]. *)
Definition read {A} (f : InterviewState -> A) : Handler A := fun _ t =>
  (Returns (f (session t)), t).

(** An assignment to [state]. *)
Definition update (f : InterviewState -> InterviewState) : Handler unit := fun _ t =>
  (Returns (), {| session := f (session t); registered := registered t; outbox := outbox t |}).

(** [await] on a collaborator. *)
Definition await {A} (call : Env -> Outcome A) : Handler A := fun env t => (call env, t).

(** A computation that touches neither the state nor the collaborators. *)
Definition eval {A} (o : Outcome A) : Handler A := fun _ t => (o, t).

(** [await context.sendActivity(a)]. *)
Definition sendActivity (a : Activity) : Handler unit := fun env t =>
  (if delivers env (length (outbox t)) a then Returns () else Throws,
   {| session := session t; registered := registered t; outbox := outbox t ++ [a] |}).

(** [this.interviewStates.delete(context.activity.from.id)]. *)
Definition interviewStates_delete : Handler unit := fun _ t =>
  (Returns (), {| session := session t; registered := false; outbox := outbox t |}).

(** [o || d] for an optional string. *)
Definition or_string (o : option string) (d : string) : string :=
  match o with
  | Some s => if bool_decide (s = EmptyString) then d else s
  | None => d
  end.

(** ** The fixed part of the interview *)

Module fixedFlow.

Definition greeting_question : string :=
  "Hello! Welcome to the KPMG Global Services initial interview. I am your AI interviewer.".

Definition name_prompt_question : string :=
  "Thank you for confirming the role. To begin, please tell me your full name.".

Definition pre_screen_question : string :=
  "It's a pleasure to meet you, {name}. I have confirmed the Job Description for the role you applied for. Before we dive into technical and value-based questions, please summarize your educational background and professional experience, focusing on how you meet the job's basic requirements.".

Definition closing_question : string :=
  "Thank you, {name}, for taking the time to complete this interview. Your responses have been recorded and will be reviewed by our hiring team. You can expect to hear back from us within 3-5 business days. Have a great day!".

Definition greeting_nextStage : Stage := jd_selection.
Definition jd_selection_nextStage : Stage := name_prompt.
Definition name_prompt_nextStage : Stage := pre_screen.
Definition pre_screen_nextStage : Stage := jd_questions.
Definition closing_nextStage : Stage := complete.

End fixedFlow.

Definition speak_open : string :=
  "<speak version='1.0' xmlns='http://www.w3.org/2001/10/synthesis' xml:lang='en-US'>".

Definition speak_close : string :=
  nl +:+ "            </prosody>" +:+ nl +:+ "        </speak>".

Definition generateSsml (text : string) : string :=
  let sanitizedText :=
    replaceAll ">" "&gt;" (replaceAll "<" "&lt;" (replaceAll "&" "&amp;" text)) in
  speak_open +:+ nl +:+
  "            <prosody rate='medium' pitch='medium'>" +:+ nl +:+
  "                " +:+ sanitizedText +:+ speak_close.

(** The message whose spoken form is derived from its text. *)
Definition spoken (text : string) : Activity :=
  {| text := text; speak := Some (generateSsml text) |}.

Definition no_speech_text : string :=
  "I didn't receive any speech. Could you please speak up?".

Definition completed_text : string :=
  "Your interview has been completed. Thank you!".

Definition unknown_state_text : string :=
  "I seem to be in an unknown state. Let's restart the interview. Please refresh if this persists.".

Definition name_clarification_activity : Activity :=
  {| text := "I apologize, I didn't catch your name. Could you state it clearly? For example: 'My name is John Smith'";
     speak := Some (speak_open +:+ nl +:+
       "            <prosody rate='medium'>" +:+ nl +:+
       "                I apologize, I didn't quite catch your full name." +:+ nl +:+
       "                <break time='300ms'/>" +:+ nl +:+
       "                Could you please state it clearly?" +:+ speak_close) |}.

Definition error_activity : Activity :=
  {| text := "I'm experiencing technical difficulties. Could you please repeat your last response?";
     speak := Some (speak_open +:+ nl +:+
       "            <prosody rate='medium'>" +:+ nl +:+
       "                I'm experiencing some technical difficulties." +:+ nl +:+
       "                <break time='300ms'/>" +:+ nl +:+
       "                Could you please repeat?" +:+ speak_close) |}.

Definition sendErrorMessage : Handler unit := sendActivity error_activity.

Definition sendNameClarification : Handler unit :=
  sendActivity name_clarification_activity;;
  update (push_history assistant (text name_clarification_activity)).

Definition askForJDSelection : Handler unit :=
  state ← read id;
  let jdList :=
    join ", " (imap (fun index name => pretty (index + 1) +:+ ". " +:+ JS.replace ".txt" "" name)
                    (availableJDs state)) in
  let questionText :=
    "We offer interviews for the following roles: " +:+ jdList +:+
    ". Please say the number or the name of the role you are here for." in
  sendActivity (spoken questionText);;
  update (push_history assistant questionText).

(** The body of [sendWelcomeMessage] once [state] is at hand. *)
Definition sendWelcomeMessage_state : Handler unit :=
  let welcomeMessage := fixedFlow.greeting_question in
  sendActivity (spoken welcomeMessage);;
  update (push_history assistant welcomeMessage);;
  update (set_currentStage jd_selection);;
  askForJDSelection.

Definition fetchJobDescription (fileName : string) : Handler string :=
  try_catch
    (await (fun env => blob_download env fileName))
    (mret ("JD Fetch Failed for " +:+ fileName +:+
           ". Default Role: Senior Consultant. Key Skills: Leadership, Project Management, Azure.")).

Definition selection_reprompt (state : InterviewState) : string :=
  "I couldn't identify that selection. Please select a number between 1 and " +:+
  pretty (length (availableJDs state)) +:+ ".".

Definition handleJDSelection (userText : string) : Handler unit :=
  try_catch
    (content ← await selection_reply;
     let chosenFileName := trim <$> content in
     state ← read id;
     match chosenFileName with
     | Some chosen =>
         if negb (bool_decide (chosen = EmptyString)) && negb (bool_decide (chosen = "N/A"))
            && bool_decide (chosen ∈ availableJDs state)
         then
           update (set_jdFileName chosen);;
           jd ← fetchJobDescription chosen;
           update (set_jdContent jd);;
           update (set_currentStage fixedFlow.jd_selection_nextStage);;
           let questionText := fixedFlow.name_prompt_question in
           sendActivity (spoken questionText);;
           update (push_history assistant questionText)
         else
           let message := selection_reprompt state in
           sendActivity (spoken message);;
           update (push_history assistant message)
     | None =>
         let message := selection_reprompt state in
         sendActivity (spoken message);;
         update (push_history assistant message)
     end)
    sendErrorMessage.

Definition sendNextQuestion : Handler unit :=
  state ← read id;
  let questionText :=
    if bool_decide (currentStage state = pre_screen) then
      JS.replace "{name}" (or_string (candidateName state) "there") fixedFlow.pre_screen_question
    else if bool_decide (currentStage state = closing) then
      JS.replace "{name}" (or_string (candidateName state) "there") fixedFlow.closing_question
    else EmptyString in
  sendActivity (spoken questionText);;
  update (push_history assistant questionText).

Definition quote (c : ascii) : bool :=
  bool_decide (c = "'"%char) || bool_decide (c = "034"%char).

Definition handleNameExtraction (userText : string) : Handler unit :=
  try_catch
    (content ← await name_reply;
     let name := trim <$> content in
     let cleanName := removeAll quote <$> name in
     let normalizedName :=
       if bool_decide (toUpperCase <$> cleanName ≠ Some "N/A") then cleanName else None in
     match normalizedName with
     | Some n =>
         if bool_decide (n = EmptyString) then sendNameClarification
         else
           update (set_candidateName n);;
           update (set_currentStage fixedFlow.name_prompt_nextStage);;
           sendNextQuestion
     | None => sendNameClarification
     end)
    sendNameClarification.

Definition generateDynamicQuestion : Handler string :=
  state ← read id;
  let currentQNum := questionCount state + 1 in
  try_catch
    (content ← await question_reply;
     let questionText := trim <$> content in
     match questionText with
     | Some q =>
         if bool_decide (q = EmptyString) || (String.length q <? 20)
         then mret ("For question " +:+ pretty currentQNum +:+
                    ", describe a complex challenge you solved that aligns with the role.")
         else mret q
     | None =>
         mret ("For question " +:+ pretty currentQNum +:+
               ", describe a complex challenge you solved that aligns with the role.")
     end)
    (mret ("For question " +:+ pretty currentQNum +:+
           ", tell me about a relevant project from your experience.")).

Definition askNextDynamicQuestion : Handler unit :=
  questionText ← generateDynamicQuestion;
  sendActivity (spoken questionText);;
  update (push_history assistant questionText).

(** The label under which a turn's assessment is recorded. *)
Definition assessment_stage (state : InterviewState) : string :=
  if bool_decide (currentStage state = jd_questions)
  then "jd_q" +:+ pretty (questionCount state + 1)
  else Stage_name (currentStage state).

(** What the loop of [completeInterview] accumulates. *)
Record Totals : Type := {
  totalClarityScore : float;
  totalRelevanceScore : float;
  validScores : nat;
  detailedReport : string
}.

(** The three figures of the final assessment, as printed. *)
Record Metrics : Type := {
  avgClarity : string;
  avgRelevance : string;
  overallScore : string
}.

Definition report_stages (state : InterviewState) : list string :=
  "pre_screen" :: map (fun i => "jd_q" +:+ pretty i) (seq 1 (maxQuestions state)).

Definition entity_text (e : JsValue) : Outcome string :=
  t ← Get e "text";
  ts ← template t;
  n ← Get e "entity";
  ns ← template n;
  mret (ts +:+ " (" +:+ ns +:+ ")").

(** ** Start-up *)

(** [process.env]: the variables that are set, with their values. *)
Definition required : list string :=
  ["AzureOpenAIEndpoint"; "AzureOpenAIKey"; "AzureOpenAIDeploymentName"; "SpeechServiceKey";
   "SpeechServiceRegion"; "JOB_DESCRIPTION_CONTAINER"; "STORAGE_ACCOUNT_NAME";
   "STORAGE_ACCOUNT_KEY"; "AVAILABLE_JDS"].

(** [required.filter(key => !process.env[key])]. *)
Definition missing (process_env : gmap string string) : list string :=
  List.filter (fun key => bool_decide (or_string (process_env !! key) EmptyString = EmptyString))
              required.

(** [validateEnvironment]: it throws an [Error] with the given message, or
    returns. *)
Definition validateEnvironment (process_env : gmap string string) : string + unit :=
  if 0 <? length (missing process_env)
  then inl ("Missing required environment variables: " +:+ join ", " (missing process_env))
  else inr ().

(** ** Concrete collaborators, for the examples *)

Module Sample.

Definition quoted (s : string) : string := String "034" s +:+ String "034" EmptyString.

(** An assessment as the backend is asked to return it; [entities] is the
    text of the [ExtractedEntities] array. *)
Definition assessment_json (clarity relevance entities : string) : string :=
  "{" +:+ quoted "ClarityScore" +:+ ":" +:+ clarity +:+ "," +:+
  quoted "RelevanceScore" +:+ ":" +:+ relevance +:+ "," +:+
  quoted "Summary" +:+ ":" +:+ quoted "Good." +:+ "," +:+
  quoted "ExtractedEntities" +:+ ":" +:+ entities +:+ "}".

Definition assessment_value (clarity relevance : Z) (entities : list JsValue) : JsValue :=
  JObj [("ClarityScore", JNum clarity); ("RelevanceScore", JNum relevance);
        ("Summary", JStr "Good."); ("ExtractedEntities", JArr entities)].

(** [JSON.parse] on the texts that the examples use; any other text is
    taken not to parse. *)
Definition JSON_parse (s : string) : Outcome JsValue :=
  if bool_decide (s = "{}") then Returns (JObj [])
  else if bool_decide (s = assessment_json "4" "5" "[]") then Returns (assessment_value 4 5 [])
  else if bool_decide (s = assessment_json "2" "3" "[]") then Returns (assessment_value 2 3 [])
  else if bool_decide (s = assessment_json "4" "5" "[null]")
  then Returns (assessment_value 4 5 [JNull])
  else Throws.

(** [Number::toString] on the values that are not finite. *)
Definition Number_toString (x : float) : string :=
  if is_nan x then "NaN"
  else if (x =? infinity)%float then "Infinity"
  else if (x =? neg_infinity)%float then "-Infinity"
  else EmptyString.

Definition AVAILABLE_JDS : option string := Some "dev.txt, qa.txt".

(** A backend that answers every request as asked, and a channel that
    delivers everything. *)
Definition env (analysis : string) : Env :=
  {| selection_reply := Returns (Some "dev.txt");
     name_reply := Returns (Some "Ann Lee");
     question_reply := Returns (Some "Which audit standard have you applied most often?");
     analysis_reply := Returns (Some analysis);
     blob_download := fun _ => Returns "Role: developer. Skills: Azure.";
     delivers := fun _ _ => true |}.

(** A backend that is down, behind a channel that delivers. *)
Definition env_down : Env :=
  {| selection_reply := Throws;
     name_reply := Throws;
     question_reply := Throws;
     analysis_reply := Throws;
     blob_download := fun _ => Throws;
     delivers := fun _ _ => true |}.

(** A message of the candidate [ann], and the activity that tells that she
    joined the conversation. *)
Definition says (text : string) : TurnContext :=
  {| activity_text := Some text; from_id := "ann"; membersAdded := None; recipient_id := "bot" |}.

Definition joined : TurnContext :=
  {| activity_text := None; from_id := "ann"; membersAdded := Some ["bot"; "ann"];
     recipient_id := "bot" |}.


Definition good : Env := env (assessment_json "4" "5" "[]").

Definition steps (e : Env) (texts : list string) : list (Inbound * Env) :=
  map (fun text => (MessageActivity (says text), e)) texts.

(** Ann joins, picks a role and gives her name: the session is in
    [pre_screen]. *)
Definition opening : list (Inbound * Env) :=
  (ConversationUpdate joined, good) :: steps good ["the first one"; "I am Ann Lee"].

Definition answers : list string := ["a1"; "a2"; "a3"; "a4"; "a5"].

(** A whole interview up to the closing prompt. *)
Definition interview : list (Inbound * Env) :=
  opening ++ steps good ("my background" :: answers).

(** The same, and then Ann joins again before she has answered the closing
    prompt, and goes through the stages a second time. *)
Definition rejoined : list (Inbound * Env) :=
  interview ++ opening ++ steps good ["my background"; "one more answer"].

(** An interview in which the backend's first assessment lists [null]
    among the extracted entities. *)
Definition interview_null_entity : list (Inbound * Env) :=
  opening ++ steps (env (assessment_json "4" "5" "[null]")) ["my background"]
  ++ steps good answers.


(** A backend that works, but whose storage has no blob to download. *)
Definition env_no_blob : Env :=
  {| selection_reply := Returns (Some "dev.txt");
     name_reply := Returns (Some "Ann Lee");
     question_reply := Returns (Some "Which audit standard have you applied most often?");
     analysis_reply := Returns (Some (assessment_json "4" "5" "[]"));
     blob_download := fun _ => Throws;
     delivers := fun _ _ => true |}.

(** The activity that tells that the bot itself joined. *)
Definition bot_joined : TurnContext :=
  {| activity_text := None; from_id := "ann"; membersAdded := Some ["bot"];
     recipient_id := "bot" |}.

(** Ann joins and picks a role: the session is in [name_prompt]. *)
Definition selecting : list (Inbound * Env) :=
  (ConversationUpdate joined, good) :: steps good ["the first one"].

(** An environment in which every required variable is set. *)
Definition process_env : gmap string string :=
  list_to_map
    [("AzureOpenAIEndpoint", "https://example.openai.azure.com");
     ("AzureOpenAIKey", "key"); ("AzureOpenAIDeploymentName", "gpt");
     ("SpeechServiceKey", "key"); ("SpeechServiceRegion", "westeurope");
     ("JOB_DESCRIPTION_CONTAINER", "jds"); ("STORAGE_ACCOUNT_NAME", "account");
     ("STORAGE_ACCOUNT_KEY", "key"); ("AVAILABLE_JDS", "dev.txt, qa.txt")].

End Sample.
Section Bot.

(** [JSON.parse], [Number::toString] (see [JS.toFixed]) and the
    environment variable [AVAILABLE_JDS] are given from outside the
    program. *)
Variable JSON_parse : string -> Outcome JsValue.
Variable Number_toString : float -> string.
Variable AVAILABLE_JDS : option string.

Definition handleGPTResponseAnalysis (userText : string) : Handler unit :=
  state ← read id;
  let stage := assessment_stage state in
  try_catch
    (content ← await analysis_reply;
     gptAnalysis ← eval (JSON_parse (or_string content "{}"));
     Summary ← eval (Get gptAnalysis "Summary");
     update (set_response (stage +:+ "_gpt_summary") (or_else Summary (JStr "Summary pending.")));;
     ClarityScore ← eval (Get gptAnalysis "ClarityScore");
     update (set_response (stage +:+ "_clarity_score") (or_else ClarityScore (JStr "N/A")));;
     RelevanceScore ← eval (Get gptAnalysis "RelevanceScore");
     update (set_response (stage +:+ "_relevance_score") (or_else RelevanceScore (JStr "N/A")));;
     ExtractedEntities ← eval (Get gptAnalysis "ExtractedEntities");
     update (set_response (stage +:+ "_entities") (or_else ExtractedEntities (JArr []))))
    (update (set_response (stage +:+ "_gpt_summary") (JStr "Analysis failed."));;
     update (set_response (stage +:+ "_entities") (JArr [])));;
  state ← read id;
  if bool_decide (currentStage state = jd_questions)
  then update (set_questionCount (questionCount state + 1))
  else mret ().

(** One iteration of [for (const stage of stages)]. *)
Definition report_stage (state : InterviewState) (acc : Totals) (stage : string)
  : Outcome Totals :=
  clarity ← parseInt (responses state !! (stage +:+ "_clarity_score"));
  relevance ← parseInt (responses state !! (stage +:+ "_relevance_score"));
  let valid := negb (isNaN clarity) && negb (isNaN relevance) in
  let gptSummary :=
    or_else (responses state !! (stage +:+ "_gpt_summary")) (JStr "No data.") in
  entityList ←
    match responses state !! (stage +:+ "_entities") with
    | Some (JArr items) => join ", " <$> map_outcome entity_text items
    | _ => Returns "No structured data."
    end;
  let scores :=
    (if falsy_number clarity then "N/A" else number_template Number_toString clarity) +:+ "/" +:+
    (if falsy_number relevance then "N/A" else number_template Number_toString relevance) in
  let heading :=
    if bool_decide (stage = "pre_screen") then "--- Initial Screening ---"
    else "--- Question " +:+ slice_last stage +:+ " ---" in
  summary ← ToString gptSummary;
  mret {|
    totalClarityScore :=
      if valid then (totalClarityScore acc + clarity)%float else totalClarityScore acc;
    totalRelevanceScore :=
      if valid then (totalRelevanceScore acc + relevance)%float else totalRelevanceScore acc;
    validScores := if valid then validScores acc + 1 else validScores acc;
    detailedReport :=
      detailedReport acc +:+ nl +:+ heading +:+ nl +:+
      "Summary: " +:+ summary +:+ nl +:+
      "Clarity/Relevance: " +:+ scores +:+ nl +:+
      "Entities: " +:+ entityList +:+ nl
  |}.

Fixpoint report_loop (state : InterviewState) (acc : Totals) (stages : list string)
  : Outcome Totals :=
  match stages with
  | [] => Returns acc
  | stage :: rest => acc' ← report_stage state acc stage; report_loop state acc' rest
  end.

Definition final_metrics (t : Totals) : Metrics :=
  let n := Z2F (Z.of_nat (validScores t)) in
  {| avgClarity :=
       if 0 <? validScores t then toFixed Number_toString (totalClarityScore t / n)%float 1
       else "N/A";
     avgRelevance :=
       if 0 <? validScores t then toFixed Number_toString (totalRelevanceScore t / n)%float 1
       else "N/A";
     overallScore :=
       if 0 <? validScores t
       then toFixed Number_toString
              ((totalClarityScore t + totalRelevanceScore t) / (n * 2) / 5 * 100)%float 0
       else "N/A" |}.

Definition summaryText (state : InterviewState) (t : Totals) : string :=
  let m := final_metrics t in
  trim (nl +:+
    "Interview Summary for " +:+ or_string (candidateName state) "Candidate" +:+ ":" +:+ nl +:+
    nl +:+
    "--- Final Assessment ---" +:+ nl +:+
    "Role: " +:+ or_string (JS.replace ".txt" "" <$> jdFileName state) "N/A" +:+ nl +:+
    "Questions Answered: " +:+ pretty (questionCount state) +:+ nl +:+
    nl +:+
    "Average Clarity: **" +:+ avgClarity m +:+ "/5**" +:+ nl +:+
    "Average Relevance: **" +:+ avgRelevance m +:+ "/5**" +:+ nl +:+
    "Qualification Score: **" +:+ overallScore m +:+ "%**" +:+ nl +:+
    nl +:+
    detailedReport t +:+ nl +:+
    nl +:+
    "Your responses will be reviewed by the KPMG hiring team. Thank you!" +:+ nl +:+
    "        ").

Definition finalSsml (state : InterviewState) (t : Totals) : string :=
  speak_open +:+ nl +:+
  "            <prosody rate='medium'>" +:+ nl +:+
  "                Interview completed, " +:+
    match candidateName state with Some n => n | None => "undefined" end +:+ ". " +:+ nl +:+
  "                Your score is " +:+ overallScore (final_metrics t) +:+ " percent." +:+ nl +:+
  "                Thank you for your time!" +:+ speak_close.

Definition no_totals : Totals :=
  {| totalClarityScore := 0; totalRelevanceScore := 0; validScores := 0;
     detailedReport := EmptyString |}.

Definition completeInterview : Handler unit :=
  update (set_currentStage complete);;
  state ← read id;
  totals ← eval (report_loop state no_totals (report_stages state));
  sendActivity {| text := summaryText state totals; speak := Some (finalSsml state totals) |};;
  update (push_history assistant (summaryText state totals));;
  interviewStates_delete.

(** The [if ... else if ...] chain inside the [try] of
    [processUserMessage]. *)
Definition dispatch (userText : string) : Handler unit :=
  stage ← read currentStage;
  match stage with
  | jd_selection => handleJDSelection userText
  | name_prompt => handleNameExtraction userText
  | pre_screen =>
      update (set_response "pre_screen_raw_response" (JStr userText));;
      handleGPTResponseAnalysis userText;;
      update (set_currentStage fixedFlow.pre_screen_nextStage);;
      askNextDynamicQuestion
  | jd_questions =>
      n ← read questionCount;
      update (set_response ("jd_q" +:+ pretty (n + 1) +:+ "_raw_response") (JStr userText));;
      handleGPTResponseAnalysis userText;;
      state ← read id;
      if questionCount state <? maxQuestions state then askNextDynamicQuestion
      else
        update (set_currentStage closing);;
        sendNextQuestion
  | closing => completeInterview
  | complete => sendActivity (spoken completed_text)
  | greeting => sendActivity (spoken unknown_state_text)
  end.

(** The body of [processUserMessage] once [userText] (trimmed, or missing)
    and [state] are at hand. *)
Definition processUserMessage_state (userText : option string) : Handler unit :=
  match userText with
  | Some userText =>
      if bool_decide (userText = EmptyString) then sendActivity (spoken no_speech_text)
      else
        update (push_history user userText);;
        try_catch (dispatch userText) sendErrorMessage
  | None => sendActivity (spoken no_speech_text)
  end.

(** *** The session store *)

Definition new_state : InterviewState :=
  {| candidateName := None;
     currentStage := greeting;
     jdFileName := None;
     jdContent := EmptyString;
     availableJDs := default [] (map trim <$> (split "," <$> AVAILABLE_JDS));
     questionCount := 0;
     maxQuestions := 5;
     responses := ∅;
     conversationHistory := [] |}.

Definition getUserState (userId : string) (interviewStates : gmap string InterviewState)
  : InterviewState * gmap string InterviewState :=
  match interviewStates !! userId with
  | Some state => (state, interviewStates)
  | None => (new_state, <[userId := new_state]> interviewStates)
  end.

(** The bot while it handles one inbound activity: the sessions, and the
    activities handed to the channel so far. *)
Record Bot : Type := {
  interviewStates : gmap string InterviewState;
  sent : list Activity
}.

(** [const state = this.getUserState(userId)] followed by code that works
    on [state]: the session is fetched or created, the code runs on it,
    and the store holds what the code made of it, whether the code
    returned or threw. *)
Definition with_state {A} (userId : string) (body : Handler A) (env : Env) (bot : Bot)
  : Outcome A * Bot :=
  let '(state, m) := getUserState userId (interviewStates bot) in
  let '(r, t) := body env {| session := state; registered := true; outbox := sent bot |} in
  (r, {| interviewStates := if registered t then <[userId := session t]> m else delete userId m;
         sent := outbox t |}).

Definition sendWelcomeMessage (context : TurnContext) : Env -> Bot -> Outcome unit * Bot :=
  with_state (from_id context) sendWelcomeMessage_state.

Definition processUserMessage (context : TurnContext) : Env -> Bot -> Outcome unit * Bot :=
  with_state (from_id context) (processUserMessage_state (trim <$> activity_text context)).

(** The handler registered with [onMembersAdded]: a welcome for every
    added member other than the bot itself. *)
Fixpoint welcome_members (context : TurnContext) (members : list string) (env : Env) (bot : Bot)
  : Outcome unit * Bot :=
  match members with
  | [] => (Returns (), bot)
  | member :: rest =>
      if bool_decide (member ≠ recipient_id context) then
        match sendWelcomeMessage context env bot with
        | (Returns _, bot') => welcome_members context rest env bot'
        | (Throws, bot') => (Throws, bot')
        end
      else welcome_members context rest env bot
  end.

Definition onMembersAdded (context : TurnContext) (env : Env) (bot : Bot) : Outcome unit * Bot :=
  welcome_members context (default [] (membersAdded context)) env bot.

(** The handler registered with [onMessage]. *)
Definition onMessage (context : TurnContext) (env : Env) (bot : Bot) : Outcome unit * Bot :=
  processUserMessage context env bot.

(** One inbound activity handled against the sessions [m]: the outcome,
    the sessions afterwards, and the activities sent. *)
Definition run (a : Inbound) (env : Env) (m : gmap string InterviewState)
  : Outcome unit * gmap string InterviewState * list Activity :=
  let '(r, bot) :=
    match a with
    | MessageActivity context => onMessage context env {| interviewStates := m; sent := [] |}
    | ConversationUpdate context =>
        onMembersAdded context env {| interviewStates := m; sent := [] |}
    end in
  (r, interviewStates bot, sent bot).


(** ** Notions used to state the properties *)

(** The order [greeting < jd_selection < name_prompt < pre_screen <
    jd_questions < closing < complete]. *)
Definition stage_rank (s : Stage) : nat :=
  match s with
  | greeting => 0
  | jd_selection => 1
  | name_prompt => 2
  | pre_screen => 3
  | jd_questions => 4
  | closing => 5
  | complete => 6
  end.

(** [state.questionCount++] when the stage is [jd_questions]. *)
Definition bump (s : InterviewState) : InterviewState :=
  if bool_decide (currentStage s = jd_questions)
  then set_questionCount (questionCount s + 1) s else s.

(** The sessions after one inbound activity. *)
Definition sessions_after (a : Inbound) (env : Env) (m : gmap string InterviewState)
  : gmap string InterviewState := (run a env m).1.2.

(** The activities sent while handling one inbound activity. *)
Definition sent_during (a : Inbound) (env : Env) (m : gmap string InterviewState)
  : list Activity := (run a env m).2.

(** The sender of an inbound activity. *)
Definition sender (a : Inbound) : string :=
  match a with
  | MessageActivity context | ConversationUpdate context => from_id context
  end.

(** A text that [processUserMessage] takes for silence: missing, empty, or
    white space only. *)
Definition blank (text : option string) : Prop :=
  match text with
  | Some s => trim s = EmptyString
  | None => True
  end.

(** The session that a turn of [userId] works on: the stored one, or the
    one that [getUserState] creates. *)
Definition session_of (userId : string) (m : gmap string InterviewState) : InterviewState :=
  (getUserState userId m).1.

(** The turn as it stands when the [try] of [processUserMessage] is
    entered. *)
Definition entering (userText : string) (t : Turn) : Turn :=
  {| session := push_history user userText (session t);
     registered := registered t; outbox := outbox t |}.

(** A sequence of inbound activities, each with what the collaborators
    answer during it. *)
Fixpoint run_all (trace : list (Inbound * Env)) (m : gmap string InterviewState)
  : gmap string InterviewState :=
  match trace with
  | [] => m
  | (a, env) :: rest => run_all rest (sessions_after a env m)
  end.

Definition is_message (a : Inbound) : Prop :=
  match a with
  | MessageActivity _ => True
  | ConversationUpdate _ => False
  end.


(** The selection that [handleJDSelection] takes from the backend's
    answer, if it takes one. *)
Definition accepted (state : InterviewState) (content : option string) (chosen : string) : Prop :=
  trim <$> content = Some chosen ∧ chosen ∈ availableJDs state ∧
  chosen ≠ "N/A" ∧ chosen ≠ EmptyString.

Definition rejected (state : InterviewState) (content : option string) : Prop :=
  ∀ chosen, trim <$> content = Some chosen →
    chosen ∉ availableJDs state ∨ chosen = "N/A" ∨ chosen = EmptyString.

(** The sanitizer as the specification words it: [&], [<] and [>] are
    escaped, each character on its own. *)
Fixpoint escape (s : string) : string :=
  match s with
  | EmptyString => EmptyString
  | String c s' =>
      (if bool_decide (c = "&"%char) then "&amp;"
       else if bool_decide (c = "<"%char) then "&lt;"
       else if bool_decide (c = ">"%char) then "&gt;"
       else String c EmptyString) +:+ escape s'
  end.

(** The speech markup around a sanitized text. *)
Definition wrap (sanitized : string) : string :=
  speak_open +:+ nl +:+
  "            <prosody rate='medium' pitch='medium'>" +:+ nl +:+
  "                " +:+ sanitized +:+ speak_close.

(** The spoken form is derived from the text. *)
Definition derived (a : Activity) : Prop := speak a = Some (wrap (escape (text a))).

(** The three messages whose spoken form is written out by hand. *)
Definition hand_written (a : Activity) : Prop :=
  a = name_clarification_activity ∨ a = error_activity ∨
  ∃ state totals,
    a = {| text := summaryText state totals; speak := Some (finalSsml state totals) |}.

Definition shaped (a : Activity) : Prop := derived a ∨ hand_written a.

(** *** The aggregation, as the specification words it *)

(** The number that [parseInt] reads from a recorded value; a value
    that [parseInt] cannot convert to a string at all is no number. *)
Definition score (v : option JsValue) : float :=
  match parseInt v with
  | Returns x => x
  | Throws => nan
  end.

(** The clarity and relevance scores recorded under a stage label, as
    [parseInt] reads them. *)
Definition scores (state : InterviewState) (stage : string) : float * float :=
  (score (responses state !! (stage +:+ "_clarity_score")),
   score (responses state !! (stage +:+ "_relevance_score"))).

Definition parseable (p : float * float) : bool := negb (isNaN p.1) && negb (isNaN p.2).










(** The question budget: the count is within [maxQuestions], and strictly
    below it as long as the session has not reached [closing]. *)
Definition within_budget (s : InterviewState) : Prop :=
  questionCount s ≤ maxQuestions s ∧
  (stage_rank (currentStage s) ≤ stage_rank jd_questions → questionCount s < maxQuestions s).

(** A participant-joined activity that finds the sender's session in
    [closing] or [complete]. *)
Definition late_join (a : Inbound) (m : gmap string InterviewState) : Prop :=
  match a with
  | MessageActivity _ => False
  | ConversationUpdate context =>
      stage_rank jd_questions < stage_rank (currentStage (session_of (from_id context) m))
  end.

(** Traces without a late join. *)
Fixpoint no_late_join (trace : list (Inbound * Env)) (m : gmap string InterviewState) : Prop :=
  match trace with
  | [] => True
  | (a, env) :: rest => ¬ late_join a m ∧ no_late_join rest (sessions_after a env m)
  end.

(** *** Notions for the further properties *)

(** The name that [handleNameExtraction] takes from the backend's answer:
    trimmed, quotes removed, and not taken when nothing is left or when
    what is left is ['N/A'] in any casing. *)
Definition extracted_name (content : option string) : option string :=
  match content with
  | Some c =>
      let clean := removeAll quote (trim c) in
      if bool_decide (clean = EmptyString) || bool_decide (toUpperCase clean = "N/A")
      then None else Some clean
  | None => None
  end.

(** A channel that delivers every activity. *)
Definition delivering (env : Env) : Prop := ∀ n a, delivers env n a = true.

(** The four keys under which [handleGPTResponseAnalysis] records. *)
Definition assessment_keys (stage : string) : list string :=
  [stage +:+ "_gpt_summary"; stage +:+ "_clarity_score"; stage +:+ "_relevance_score";
   stage +:+ "_entities"].

(** Whether a character occurs in a text. *)
Fixpoint occurs (c : ascii) (s : string) : bool :=
  match s with
  | EmptyString => false
  | String d s' => bool_decide (d = c) || occurs c s'
  end.


(** The question that lists the roles, for a list of job descriptions. *)
Definition roles_question (available : list string) : string :=
  "We offer interviews for the following roles: " +:+
  join ", " (imap (fun index name => pretty (index + 1) +:+ ". " +:+ JS.replace ".txt" "" name)
                  available) +:+
  ". Please say the number or the name of the role you are here for.".

(** A session after one welcome: the two messages are in the history and
    the stage is [jd_selection]. *)
Definition welcomed (state : InterviewState) : InterviewState :=
  push_history assistant (roles_question (availableJDs state))
    (set_currentStage jd_selection
       (push_history assistant fixedFlow.greeting_question state)).

(** The two messages of a welcome. *)
Definition welcome_activities (state : InterviewState) : list Activity :=
  [spoken fixedFlow.greeting_question; spoken (roles_question (availableJDs state))].

(** The members that a conversation update adds, the bot itself apart. *)
Definition newcomers (context : TurnContext) : list string :=
  filter (λ member, member ≠ recipient_id context) (default [] (membersAdded context)).

(** Whether a computation returned. *)
Definition returns {A} (o : Outcome A) : bool :=
  match o with
  | Returns _ => true
  | Throws => false
  end.

(** The values that can be converted to a string: all but an object that
    has a member [toString] of its own, and an array that prints such an
    object as one of its elements. *)
Fixpoint printable (v : JsValue) : bool :=
  match v with
  | JArr items => forallb printable items
  | JObj fields =>
      match assoc "toString" fields with
      | Some _ => false
      | None => true
      end
  | _ => true
  end.

Definition printable_opt (v : option JsValue) : bool :=
  match v with
  | Some v => printable v
  | None => true
  end.

(** An element of a list of entities that the final report can list: it
    is not [null], and if it is an object, its [text] and its [entity]
    can be converted to strings. *)
Definition entity_listable (e : JsValue) : bool :=
  match e with
  | JNull => false
  | JObj fields => printable_opt (assoc "text" fields) && printable_opt (assoc "entity" fields)
  | _ => true
  end.

(** What is recorded for a stage can be reported: the two scores and the
    summary can be converted to strings, and the entities, if they are
    an array, can be listed. *)
Definition listable (state : InterviewState) (stage : string) : bool :=
  printable_opt (responses state !! (stage +:+ "_clarity_score")) &&
  printable_opt (responses state !! (stage +:+ "_relevance_score")) &&
  match responses state !! (stage +:+ "_entities") with
  | Some (JArr items) => forallb entity_listable items
  | _ => true
  end &&
  printable (or_else (responses state !! (stage +:+ "_gpt_summary")) (JStr "No data.")).

Definition reportable (state : InterviewState) : bool :=
  forallb (listable state) (report_stages state).

(** ** Symbolic execution of handlers *)

Ltac hsimpl :=
  cbv beta iota zeta delta
      [mbind Handler_bind mret Handler_ret try_catch read update await eval sendActivity
       sendErrorMessage interviewStates_delete fst snd session registered outbox
       fmap option_fmap option_map Outcome_bind Outcome_ret Outcome_fmap id Get].

(** Projections of updated sessions. *)
Ltac ssimpl :=
  cbn [candidateName currentStage jdFileName jdContent availableJDs questionCount
       maxQuestions responses conversationHistory
       set_candidateName set_currentStage set_jdFileName set_jdContent set_questionCount
       set_responses set_response push_history
       fixedFlow.greeting_nextStage fixedFlow.jd_selection_nextStage
       fixedFlow.name_prompt_nextStage fixedFlow.pre_screen_nextStage
       fixedFlow.closing_nextStage session registered outbox fst snd] in *.

Ltac hcase :=
  match goal with
  | |- context [match ?x with _ => _ end] =>
      lazymatch x with
      | context [match _ with _ => _ end] => fail
      | _ => destruct x eqn:?
      end
  end.

Lemma generateDynamicQuestion_run env t :
  ∃ q, generateDynamicQuestion env t = (Returns q, t).
Proof.
  unfold generateDynamicQuestion. hsimpl.
  destruct t; repeat (hcase; hsimpl); eauto.
Qed.

Lemma fetchJobDescription_run fileName env t :
  ∃ jd, fetchJobDescription fileName env t = (Returns jd, t).
Proof.
  unfold fetchJobDescription. hsimpl. destruct t; repeat (hcase; hsimpl); eauto.
Qed.

Lemma handleGPTResponseAnalysis_run u env t :
  ∃ rs, handleGPTResponseAnalysis u env t =
    (Returns (), {| session := bump (set_responses rs (session t));
                    registered := registered t; outbox := outbox t |}).
Proof.
  unfold handleGPTResponseAnalysis, bump. destruct t as [s reg out]. hsimpl.
  destruct (analysis_reply env) as [c|]; hsimpl;
    [destruct (JSON_parse _) as [[]|]; hsimpl|]; ssimpl;
    destruct (bool_decide (currentStage s = jd_questions)); hsimpl; ssimpl;
    eexists; reflexivity.
Qed.

Ltac hstep :=
  hsimpl;
  match goal with
  | |- context [handleGPTResponseAnalysis ?u ?e ?t] =>
      let rs := fresh "rs" in destruct (handleGPTResponseAnalysis_run u e t) as [rs ->]
  | |- context [generateDynamicQuestion ?e ?t] =>
      let q := fresh "q" in destruct (generateDynamicQuestion_run e t) as [q ->]
  | |- context [fetchJobDescription ?f ?e ?t] =>
      let jd := fresh "jd" in destruct (fetchJobDescription_run f e t) as [jd ->]
  | _ => hcase
  end.

Ltac unfold_handlers :=
  unfold handleJDSelection, handleNameExtraction, askNextDynamicQuestion, sendNextQuestion,
    sendNameClarification, completeInterview, askForJDSelection.

(** What one pass through the dispatcher can do to the stage, the count
    and the registration of the session, whatever the collaborators
    answer. *)
Lemma dispatch_shape u env t :
  let s := session t in
  let r := (dispatch u env t).1 in
  let t' := (dispatch u env t).2 in
  let s' := session t' in
  maxQuestions s' = maxQuestions s ∧ availableJDs s' = availableJDs s ∧
  (registered t' = registered t ∨
   currentStage s = closing ∧ r = Returns () ∧ registered t' = false) ∧
  (r = Throws → registered t' = registered t) ∧
  match currentStage s with
  | greeting | complete => s' = s
  | jd_selection =>
      questionCount s' = questionCount s ∧
      (currentStage s' = jd_selection ∨ currentStage s' = name_prompt)
  | name_prompt =>
      questionCount s' = questionCount s ∧
      (currentStage s' = name_prompt ∨ currentStage s' = pre_screen)
  | pre_screen =>
      questionCount s' = questionCount s ∧ currentStage s' = jd_questions
  | jd_questions =>
      questionCount s' = questionCount s + 1 ∧
      currentStage s' =
        if questionCount s + 1 <? maxQuestions s then jd_questions else closing
  | closing =>
      questionCount s' = questionCount s ∧ currentStage s' = complete
  end.
Proof.
  destruct t as [s reg out]. cbn [session].
  unfold dispatch. hsimpl.
  destruct (currentStage s) eqn:Hstage.
  all: unfold_handlers.
  all: repeat hstep.
  all: unfold bump in *; ssimpl; rewrite ?Hstage in *; ssimpl.
  all: repeat case_bool_decide; simplify_eq.
  all: repeat split; auto.
  all: repeat case_match; simplify_eq; ssimpl; auto; congruence.
Qed.

Lemma sendWelcomeMessage_state_shape env t :
  let r := (sendWelcomeMessage_state env t).1 in
  let t' := (sendWelcomeMessage_state env t).2 in
  registered t' = registered t ∧
  questionCount (session t') = questionCount (session t) ∧
  maxQuestions (session t') = maxQuestions (session t) ∧
  responses (session t') = responses (session t) ∧
  (if delivers env (length (outbox t)) (spoken fixedFlow.greeting_question)
   then currentStage (session t') = jd_selection
   else session t' = session t ∧ r = Throws).
Proof.
  destruct t as [s reg out]. unfold sendWelcomeMessage_state. unfold_handlers.
  repeat hstep; ssimpl; repeat split; auto.
Qed.

(** ** The store *)

Lemma getUserState_lookup userId m :
  (getUserState userId m).2 !! userId = Some (getUserState userId m).1.
Proof.
  unfold getUserState. destruct (m !! userId) eqn:H; cbn; [done|]. by rewrite lookup_insert_eq.
Qed.

Lemma getUserState_other userId other m :
  other ≠ userId → (getUserState userId m).2 !! other = m !! other.
Proof.
  intros. unfold getUserState. destruct (m !! userId); cbn; [done|].
  by rewrite lookup_insert_ne.
Qed.

Lemma getUserState_present userId m s :
  m !! userId = Some s → getUserState userId m = (s, m).
Proof. intros H. unfold getUserState. by rewrite H. Qed.

Lemma getUserState_absent userId m :
  m !! userId = None → getUserState userId m = (new_state, <[userId := new_state]> m).
Proof. intros H. unfold getUserState. by rewrite H. Qed.

(** What [with_state] leaves in the store and in the outbox. *)
Lemma with_state_run {A} userId (body : Handler A) env bot :
  let t0 := {| session := session_of userId (interviewStates bot);
               registered := true; outbox := sent bot |} in
  let t := (body env t0).2 in
  with_state userId body env bot =
    ((body env t0).1,
     {| interviewStates :=
          if registered t then <[userId := session t]> (getUserState userId (interviewStates bot)).2
          else delete userId (getUserState userId (interviewStates bot)).2;
        sent := outbox t |}).
Proof.
  unfold with_state, session_of. destruct (getUserState _ _) as [s m1]. cbn.
  by destruct (body env _) as [r t].
Qed.

Lemma with_state_other {A} userId other (body : Handler A) env bot :
  other ≠ userId →
  interviewStates (with_state userId body env bot).2 !! other = interviewStates bot !! other.
Proof.
  intros Hne. rewrite with_state_run. cbn.
  destruct (registered _).
  - rewrite lookup_insert_ne by done. by apply getUserState_other.
  - rewrite lookup_delete_ne by done. by apply getUserState_other.
Qed.

Lemma run_message context env m :
  let t0 := {| session := session_of (from_id context) m; registered := true; outbox := [] |} in
  let t := (processUserMessage_state (trim <$> activity_text context) env t0).2 in
  sessions_after (MessageActivity context) env m =
    (if registered t then <[from_id context := session t]> (getUserState (from_id context) m).2
     else delete (from_id context) (getUserState (from_id context) m).2) ∧
  sent_during (MessageActivity context) env m = outbox t.
Proof.
  unfold sessions_after, sent_during, run, onMessage, processUserMessage.
  rewrite with_state_run. cbn. done.
Qed.

Lemma welcome_members_other context members env bot other :
  other ≠ from_id context →
  interviewStates (welcome_members context members env bot).2 !! other
  = interviewStates bot !! other.
Proof.
  intros Hne. revert bot. induction members as [|member rest IH]; intros bot; cbn; [done|].
  case_bool_decide; [|apply IH].
  unfold sendWelcomeMessage.
  pose proof (with_state_other (from_id context) other sendWelcomeMessage_state env bot Hne) as Hw.
  destruct (with_state _ _ _ _) as [[[]|] bot']; cbn in *; [rewrite IH|]; done.
Qed.

(** An inbound activity touches no session but the sender's. *)
Lemma run_other a env m other :
  other ≠ sender a → sessions_after a env m !! other = m !! other.
Proof.
  intros Hne. unfold sessions_after, run. destruct a as [context|context]; cbn in *.
  - unfold onMessage, processUserMessage.
    pose proof (with_state_other (from_id context) other
      (processUserMessage_state (trim <$> activity_text context)) env
      {| interviewStates := m; sent := [] |} Hne) as Hw.
    by destruct (with_state _ _ _ _).
  - unfold onMembersAdded.
    pose proof (welcome_members_other context (default [] (membersAdded context)) env
      {| interviewStates := m; sent := [] |} other Hne) as Hw.
    by destruct (welcome_members _ _ _ _).
Qed.

(** ** The dispatcher on the session *)

Lemma processUserMessage_state_blank text env t :
  blank text →
  processUserMessage_state (trim <$> text) env t =
    (if delivers env (length (outbox t)) (spoken no_speech_text) then Returns () else Throws,
     {| session := session t; registered := registered t;
        outbox := outbox t ++ [spoken no_speech_text] |}).
Proof.
  unfold processUserMessage_state, blank. destruct text as [s|]; cbn; [intros ->|]; done.
Qed.

Lemma processUserMessage_state_text userText env t :
  userText ≠ EmptyString →
  processUserMessage_state (Some userText) env t =
    try_catch (dispatch userText) sendErrorMessage env (entering userText t).
Proof.
  intros Hne. unfold processUserMessage_state. by rewrite bool_decide_eq_false_2.
Qed.

(** The error message changes neither the session nor its registration. *)
Lemma try_catch_error_session (body : Handler ()) env t :
  session (try_catch body sendErrorMessage env t).2 = session (body env t).2 ∧
  registered (try_catch body sendErrorMessage env t).2 = registered (body env t).2.
Proof. hsimpl. by destruct (body env t) as [[[]|] t']. Qed.

Lemma processUserMessage_state_shape userText env t :
  userText ≠ EmptyString →
  let s := session t in
  let t' := (processUserMessage_state (Some userText) env t).2 in
  let s' := session t' in
  maxQuestions s' = maxQuestions s ∧
  (registered t' = registered t ∨ currentStage s = closing ∧ registered t' = false) ∧
  match currentStage s with
  | greeting | complete => s' = push_history user userText s
  | jd_selection =>
      questionCount s' = questionCount s ∧
      (currentStage s' = jd_selection ∨ currentStage s' = name_prompt)
  | name_prompt =>
      questionCount s' = questionCount s ∧
      (currentStage s' = name_prompt ∨ currentStage s' = pre_screen)
  | pre_screen =>
      questionCount s' = questionCount s ∧ currentStage s' = jd_questions
  | jd_questions =>
      questionCount s' = questionCount s + 1 ∧
      currentStage s' =
        if questionCount s + 1 <? maxQuestions s then jd_questions else closing
  | closing =>
      questionCount s' = questionCount s ∧ currentStage s' = complete
  end.
Proof.
  intros Hne. cbn zeta. rewrite processUserMessage_state_text by done.
  destruct (try_catch_error_session (dispatch userText) env (entering userText t)) as [-> ->].
  pose proof (dispatch_shape userText env (entering userText t)) as H.
  cbn zeta in H. ssimpl. unfold entering in H at 1 2 3 4 5 6 7 8 9 10. ssimpl.
  destruct H as (Hmax & _ & Hreg & _ & Hstage).
  split; [done|]. split; [tauto|]. done.
Qed.

(** The stage after a turn is the stage before it or a later one. *)
Lemma processUserMessage_state_stage userText env t :
  stage_rank (currentStage (session t))
  ≤ stage_rank (currentStage (session (processUserMessage_state userText env t).2)).
Proof.
  destruct userText as [s|]; [destruct (decide (s = EmptyString)) as [->|Hne]|]; [done| |done].
  pose proof (processUserMessage_state_shape s env t Hne) as (_ & _ & H).
  cbn zeta in H.
  destruct (currentStage (session t)) eqn:Hs; cbn [stage_rank].
  1, 7: rewrite H; ssimpl; rewrite Hs; cbn; lia.
  1, 2: destruct H as [_ [H|H]]; rewrite H; cbn; lia.
  1, 3: destruct H as [_ H]; rewrite H; cbn; lia.
  destruct H as [_ H]; rewrite H. case_match; cbn; lia.
Qed.

(** C6: an inbound turn whose text is missing, empty or white space only
    sends exactly one message, the "didn't receive any speech" re-prompt,
    and leaves the session as it was: the store afterwards is the store
    as [getUserState] found or made it, and when the sender already had a
    session the whole store is unchanged (same stage, same responses, same
    history). *)
Theorem C6_blank_text_changes_nothing context env m :
  blank (activity_text context) →
  sent_during (MessageActivity context) env m = [spoken no_speech_text] ∧
  sessions_after (MessageActivity context) env m = (getUserState (from_id context) m).2 ∧
  (∀ s, m !! from_id context = Some s → sessions_after (MessageActivity context) env m = m).
Proof.
  intros Hblank.
  destruct (run_message context env m) as [Hm Hout]. cbn zeta in *.
  rewrite processUserMessage_state_blank in Hm, Hout by done. cbn in Hm, Hout.
  assert (sessions_after (MessageActivity context) env m
          = (getUserState (from_id context) m).2) as Hstore.
  { rewrite Hm. apply insert_id, getUserState_lookup. }
  repeat split; [done..|].
  intros s Hs. by rewrite Hstore, (getUserState_present _ _ _ Hs).
Qed.

(** X20: over a message turn the stage of every session stays where it
    is or moves forward along [greeting < jd_selection < name_prompt <
    pre_screen < jd_questions < closing < complete], whatever the backend
    and the channel do, and a session that is in [complete] is still
    there, in [complete], after the turn. *)
Theorem X20_message_turn_moves_stage_forward context env m userId :
  (∀ s', sessions_after (MessageActivity context) env m !! userId = Some s' →
     stage_rank (currentStage (session_of userId m)) ≤ stage_rank (currentStage s')) ∧
  (∀ s, m !! userId = Some s → currentStage s = complete →
     ∃ s', sessions_after (MessageActivity context) env m !! userId = Some s' ∧
           currentStage s' = complete).
Proof.
  destruct (decide (userId = from_id context)) as [->|Hne].
  - destruct (run_message context env m) as [Hm _]. cbn zeta in Hm.
    set (t0 := {| session := session_of (from_id context) m; registered := true; outbox := [] |}) in *.
    pose proof (processUserMessage_state_stage (trim <$> activity_text context) env t0) as Hle.
    split.
    + intros s' Hs'. rewrite Hm in Hs'. destruct (registered _).
      * rewrite lookup_insert_eq in Hs'. by simplify_eq.
      * by rewrite lookup_delete_eq in Hs'.
    + intros s Hs Hc.
      assert (session_of (from_id context) m = s) as Hof
        by (unfold session_of; by rewrite (getUserState_present _ _ _ Hs)).
      assert (registered (processUserMessage_state (trim <$> activity_text context) env t0).2
              = true ∧
              currentStage
                (session (processUserMessage_state (trim <$> activity_text context) env t0).2)
              = complete) as [Hreg Hst].
      { destruct (activity_text context) as [text|]; cbn [fmap option_fmap option_map];
          [destruct (decide (trim text = EmptyString)) as [He|Hn]|].
        - rewrite (processUserMessage_state_blank (Some text)) by done. cbn. by rewrite Hof.
        - pose proof (processUserMessage_state_shape (trim text) env t0 Hn) as (_ & Hr & H).
          cbn [session registered t0] in Hr, H. rewrite Hof, Hc in Hr, H. rewrite H. ssimpl.
          split; [|done]. destruct Hr as [Hr|[? _]]; [by rewrite Hr|done].
        - rewrite (processUserMessage_state_blank None) by done. cbn. by rewrite Hof. }
      rewrite Hm, Hreg, lookup_insert_eq. eauto.
  - rewrite (run_other (MessageActivity context)) by done.
    split.
    + intros s' Hs'. unfold session_of. by rewrite (getUserState_present _ _ _ Hs').
    + eauto.
Qed.

Lemma session_of_lookup userId m m' :
  m !! userId = m' !! userId → session_of userId m = session_of userId m'.
Proof. unfold session_of, getUserState. intros ->. by destruct (m' !! userId). Qed.

Lemma session_of_insert userId s m : session_of userId (<[userId := s]> m) = s.
Proof. unfold session_of, getUserState. by rewrite lookup_insert_eq. Qed.

Lemma dispatch_greeting userText env t :
  currentStage (session t) = greeting →
  dispatch userText env t = sendActivity (spoken unknown_state_text) env t.
Proof. destruct t as [s reg out]. cbn. intros H. unfold dispatch. hsimpl. by rewrite H. Qed.

Lemma sendWelcomeMessage_state_delivered env t :
  (∀ n a, delivers env n a = true) →
  (sendWelcomeMessage_state env t).1 = Returns () ∧
  currentStage (session (sendWelcomeMessage_state env t).2) = jd_selection ∧
  registered (sendWelcomeMessage_state env t).2 = registered t.
Proof.
  intros Hd. destruct t as [s reg out]. unfold sendWelcomeMessage_state. unfold_handlers.
  hsimpl. rewrite !Hd. done.
Qed.

(** C10: a session in [greeting] that receives a text that is not blank
    matches no branch of the dispatcher: the "unknown state" notice is
    sent (followed by the error message only if the notice could not be
    delivered), the text is appended to the history, and the stage stays
    [greeting]. So no sequence of inbound texts takes a session out of
    [greeting]; the welcome sent when a participant joins does, to
    [jd_selection]. *)
Theorem C10_text_never_leaves_greeting userId m :
  currentStage (session_of userId m) = greeting →
  (∀ context env userText,
     from_id context = userId →
     trim <$> activity_text context = Some userText → userText ≠ EmptyString →
     sessions_after (MessageActivity context) env m !! userId
       = Some (push_history user userText (session_of userId m)) ∧
     (sent_during (MessageActivity context) env m = [spoken unknown_state_text] ∨
      sent_during (MessageActivity context) env m = [spoken unknown_state_text; error_activity])) ∧
  (∀ trace, Forall (λ step, is_message step.1) trace →
     currentStage (session_of userId (run_all trace m)) = greeting) ∧
  (∀ context env member,
     from_id context = userId →
     membersAdded context = Some [member] → member ≠ recipient_id context →
     delivers env 0 (spoken fixedFlow.greeting_question) = true →
     ∃ s', sessions_after (ConversationUpdate context) env m !! userId = Some s' ∧
           currentStage s' = jd_selection).
Proof.
  intros Hg. split; [|split].
  - intros context env userText <- Htext Hne.
    destruct (run_message context env m) as [Hm Hout]. cbn zeta in *.
    rewrite Htext, processUserMessage_state_text in Hm, Hout by done.
    unfold try_catch in Hm, Hout. rewrite dispatch_greeting in Hm, Hout by done.
    unfold sendActivity, sendErrorMessage, sendActivity, entering in Hm, Hout.
    cbn [session registered outbox fst snd length app] in Hm, Hout.
    destruct (delivers env 0 (spoken unknown_state_text));
      cbn [session registered outbox fst snd length app] in Hm, Hout;
      rewrite Hm, Hout, lookup_insert_eq; auto.
  - intros trace. revert m Hg. induction trace as [|[a env] rest IH]; intros m Hg Hall.
    + done.
    + apply Forall_cons in Hall as [Hmsg Hall]. cbn [run_all]. apply IH; [|done].
      destruct a as [context|]; [|done].
      destruct (decide (userId = from_id context)) as [->|Hother].
      * destruct (run_message context env m) as [Hm _]. cbn zeta in Hm.
        set (t0 := {| session := session_of (from_id context) m;
                      registered := true; outbox := [] |}) in *.
        destruct (activity_text context) as [text|];
          cbn [fmap option_fmap option_map] in Hm;
          [destruct (decide (trim text = EmptyString)) as [He|Hn]|].
        -- rewrite (processUserMessage_state_blank (Some text)) in Hm by done.
           cbn in Hm. by rewrite Hm, session_of_insert.
        -- pose proof (processUserMessage_state_shape (trim text) env t0 Hn) as (_ & Hr & H).
           cbn [session registered t0] in Hr, H. rewrite Hg in Hr, H.
           destruct Hr as [Hr|[? _]]; [|done]. rewrite Hr in Hm.
           rewrite Hm, session_of_insert, H. done.
        -- rewrite (processUserMessage_state_blank None) in Hm by done.
           cbn in Hm. by rewrite Hm, session_of_insert.
      * rewrite <- Hg. f_equal. apply session_of_lookup.
        by apply (run_other (MessageActivity context)).
  - intros context env member <- Hmembers Hmember Hdel.
    unfold sessions_after, run, onMembersAdded. rewrite Hmembers.
    change (default [] (Some [member])) with [member]. cbn [welcome_members].
    rewrite bool_decide_eq_true_2 by done.
    unfold sendWelcomeMessage. rewrite with_state_run. cbn zeta.
    cbn [interviewStates sent].
    pose proof (sendWelcomeMessage_state_shape env
      {| session := session_of (from_id context) m; registered := true; outbox := [] |})
      as (Hreg & _ & _ & _ & Hs).
    cbn [outbox length registered] in Hreg, Hs. rewrite Hdel in Hs.
    destruct (sendWelcomeMessage_state env _) as [[[]|] t']; cbn in *;
      rewrite Hreg, lookup_insert_eq; eauto.
Qed.

(** ** Structured assessment *)

Lemma append_inj_r (s a b : string) : s +:+ a = s +:+ b → a = b.
Proof. induction s as [|c s IH]; cbn; [done|]. intros H. apply IH. by simplify_eq. Qed.



(** ** Selection of the job description *)

Lemma selection_test state chosen :
  negb (bool_decide (chosen = EmptyString)) && negb (bool_decide (chosen = "N/A"))
    && bool_decide (chosen ∈ availableJDs state) = true
  ↔ chosen ∈ availableJDs state ∧ chosen ≠ "N/A" ∧ chosen ≠ EmptyString.
Proof.
  rewrite !andb_true_iff, !negb_true_iff, !bool_decide_eq_false, bool_decide_eq_true. tauto.
Qed.

(** The turn of [jd_selection], by what the selection call answers. *)
Lemma jd_selection_turn userText env t :
  userText ≠ EmptyString → currentStage (session t) = jd_selection →
  let s := session t in
  let t' := (processUserMessage_state (Some userText) env t).2 in
  let s' := session t' in
  let kept :=
    jdFileName s' = jdFileName s ∧ jdContent s' = jdContent s ∧
    currentStage s' = jd_selection in
  let reprompted :=
    kept ∧ ∃ rest, outbox t' = outbox t ++ spoken (selection_reprompt s) :: rest in
  match selection_reply env with
  | Returns content =>
      match trim <$> content with
      | Some chosen =>
          if negb (bool_decide (chosen = EmptyString)) && negb (bool_decide (chosen = "N/A"))
             && bool_decide (chosen ∈ availableJDs s)
          then currentStage s' = name_prompt ∧ jdFileName s' = Some chosen
          else reprompted
      | None => reprompted
      end
  | Throws =>
      kept ∧ (outbox t' = outbox t ++ [error_activity] ∨
              outbox t' = outbox t ++ [error_activity; error_activity])
  end.
Proof.
  intros Hne Hstage. cbn zeta. rewrite processUserMessage_state_text by done.
  destruct t as [s reg out]. unfold entering, dispatch, handleJDSelection.
  cbn [session registered outbox] in *. hsimpl. ssimpl. rewrite Hstage.
  destruct (selection_reply env) as [[c|]|]; cbn [fmap option_fmap option_map]; hsimpl; ssimpl.
  - destruct (negb _ && _ && _); repeat hstep; ssimpl; rewrite <- ?app_assoc; cbn [app];
      rewrite ?Hstage; repeat split; eauto.
  - repeat hstep; ssimpl; rewrite <- ?app_assoc; cbn [app]; rewrite ?Hstage;
      repeat split; eauto.
  - repeat hstep; ssimpl; rewrite <- ?app_assoc; cbn [app]; rewrite ?Hstage;
      repeat split; eauto.
Qed.

(** C5, as the code has it. In stage [jd_selection], for a text that is
    not blank: when the selection call returns something that is not
    accepted (no content, the empty string, ['N/A'], or a name that is not
    in [availableJDs]), no job description is stored, the stage stays
    [jd_selection] and the first message sent is the re-prompt "Please
    select a number between 1 and [availableJDs.length]"; when the call
    throws, nothing is stored and the stage stays as well, but what is
    sent is the generic error message and no re-prompt; the stage becomes
    [name_prompt] exactly when the call returned a name that, trimmed, is
    in [availableJDs] (and is neither empty nor ['N/A']), and that name is
    then the stored [jdFileName]. *)
Theorem C5_selection_is_validated userText env t :
  userText ≠ EmptyString → currentStage (session t) = jd_selection →
  let s := session t in
  let t' := (processUserMessage_state (Some userText) env t).2 in
  let s' := session t' in
  (∀ content, selection_reply env = Returns content → rejected s content →
     jdFileName s' = jdFileName s ∧ jdContent s' = jdContent s ∧
     currentStage s' = jd_selection ∧
     ∃ rest, outbox t' = outbox t ++ spoken (selection_reprompt s) :: rest) ∧
  (selection_reply env = Throws →
     jdFileName s' = jdFileName s ∧ jdContent s' = jdContent s ∧
     currentStage s' = jd_selection ∧
     (outbox t' = outbox t ++ [error_activity] ∨
      outbox t' = outbox t ++ [error_activity; error_activity])) ∧
  (∀ content chosen, selection_reply env = Returns content → accepted s content chosen →
     currentStage s' = name_prompt ∧ jdFileName s' = Some chosen) ∧
  (currentStage s' = name_prompt →
     ∃ content chosen, selection_reply env = Returns content ∧ accepted s content chosen).
Proof.
  intros Hne Hstage.
  pose proof (jd_selection_turn userText env t Hne Hstage) as H. cbn zeta in *.
  unfold accepted, rejected.
  destruct (selection_reply env) as [content|].
  - destruct (trim <$> content) as [chosen|] eqn:Hc.
    + destruct (negb _ && _ && _) eqn:Htest.
      * apply selection_test in Htest. destruct H as [H1 H2].
        split; [|split; [done|split]].
        -- intros ? [= <-] Hrej. destruct (Hrej chosen Hc) as [?|[?|?]]; tauto.
        -- intros ? chosen' [= <-] (Heq & _). rewrite Hc in Heq. by simplify_eq.
        -- intros _. exists content, chosen. rewrite Hc. done.
      * assert (¬ (chosen ∈ availableJDs (session t) ∧ chosen ≠ "N/A" ∧ chosen ≠ EmptyString))
          as Hno by (rewrite <- selection_test; by rewrite Htest).
        destruct H as ((H1 & H2 & H3) & H4).
        split; [|split; [done|split]].
        -- intros ? [= <-] _. done.
        -- intros ? chosen' [= <-] (Heq & Hin). rewrite Hc in Heq. simplify_eq; tauto.
        -- intros Hn. rewrite H3 in Hn. done.
    + destruct H as ((H1 & H2 & H3) & H4).
      split; [|split; [done|split]].
      * intros ? [= <-] _. done.
      * intros ? chosen' [= <-] (Heq & _). rewrite Hc in Heq. done.
      * intros Hn. rewrite H3 in Hn. done.
  - destruct H as ((H1 & H2 & H3) & H4).
    split; [done|split; [done|split; [done|]]].
    intros Hn. rewrite H3 in Hn. done.
Qed.

(** ** Faults inside a turn *)

(** The dispatcher only ever appends to the history. *)
Lemma dispatch_history userText env t :
  ∃ rest, conversationHistory (session (dispatch userText env t).2)
          = conversationHistory (session t) ++ rest.
Proof.
  destruct t as [s reg out]. cbn [session].
  unfold dispatch. hsimpl.
  destruct (currentStage s) eqn:Hstage.
  all: unfold_handlers.
  all: repeat hstep.
  all: unfold bump in *; ssimpl; repeat case_bool_decide; ssimpl.
  all: rewrite <- ?app_assoc.
  all: try (exists []; rewrite app_nil_r; reflexivity).
  all: eexists; reflexivity.
Qed.

(** C7, as the code has it: a fault inside the [try] of the dispatcher is
    caught there and answered with the "technical difficulties" message
    (the turn itself fails only if that message cannot be delivered), but
    nothing is rolled back. The session is left as the handler had it when
    the fault occurred: the candidate's text has already been appended to
    the history, whatever the handler assigned before the fault stays
    assigned, the stage is the one before the turn or a later one, and the
    session stays in the store. The next utterance is processed against
    that session. *)
Theorem C7_fault_is_caught_not_rolled_back userText env t :
  userText ≠ EmptyString →
  (dispatch userText env (entering userText t)).1 = Throws →
  let t1 := (dispatch userText env (entering userText t)).2 in
  let result := processUserMessage_state (Some userText) env t in
  result.1 = (if delivers env (length (outbox t1)) error_activity then Returns () else Throws) ∧
  outbox result.2 = outbox t1 ++ [error_activity] ∧
  session result.2 = session t1 ∧
  registered result.2 = registered t ∧
  (∃ rest, conversationHistory (session result.2)
           = conversationHistory (session t) ++ {| role := user; content := userText |} :: rest) ∧
  stage_rank (currentStage (session t)) ≤ stage_rank (currentStage (session result.2)).
Proof.
  intros Hne Hthrows. cbn zeta.
  pose proof (dispatch_shape userText env (entering userText t)) as (_ & _ & _ & Hreg & _).
  specialize (Hreg Hthrows).
  destruct (dispatch_history userText env (entering userText t)) as [rest Hhist].
  pose proof (processUserMessage_state_stage (Some userText) env t) as Hle.
  rewrite processUserMessage_state_text in * by done.
  unfold try_catch, sendErrorMessage, sendActivity in *.
  destruct (dispatch userText env (entering userText t)) as [[[]|] [s1 reg1 out1]]; [done|].
  destruct t as [s reg out]. unfold entering in *.
  cbn [fst snd session registered outbox] in *.
  repeat split; try done.
  exists rest. rewrite Hhist. ssimpl. by rewrite <- app_assoc.
Qed.

(** ** Speech markup *)

Lemma append_cons c (a b : string) : String c a +:+ b = String c (a +:+ b).
Proof. reflexivity. Qed.

Lemma append_empty (b : string) : EmptyString +:+ b = b.
Proof. reflexivity. Qed.

(** Replacing [&], then [<], then [>] over the whole text is the
    character-wise sanitizer. *)
Lemma sanitize_escape text :
  replaceAll ">" "&gt;" (replaceAll "<" "&lt;" (replaceAll "&" "&amp;" text)) = escape text.
Proof.
  induction text as [|c s IH]; [done|]. cbn [replaceAll escape].
  destruct (decide (c = "&"%char)) as [->|H1].
  { rewrite !bool_decide_eq_true_2 by done. rewrite !append_cons, !append_empty.
    cbn [replaceAll]. rewrite !bool_decide_eq_false_2 by done.
    cbn [replaceAll]. rewrite !bool_decide_eq_false_2 by done. by rewrite IH. }
  rewrite (bool_decide_eq_false_2 (c = "&"%char)) by done. cbn [replaceAll].
  destruct (decide (c = "<"%char)) as [->|H2].
  { rewrite !bool_decide_eq_true_2 by done. rewrite !append_cons, !append_empty.
    cbn [replaceAll]. rewrite !bool_decide_eq_false_2 by done. by rewrite IH. }
  rewrite (bool_decide_eq_false_2 (c = "<"%char)) by done. cbn [replaceAll].
  destruct (decide (c = ">"%char)) as [->|H3].
  { rewrite !bool_decide_eq_true_2 by done. rewrite !append_cons, !append_empty.
    by rewrite IH. }
  rewrite (bool_decide_eq_false_2 (c = ">"%char)) by done.
  rewrite append_cons, append_empty. by rewrite IH.
Qed.

Lemma spoken_derived text : derived (spoken text).
Proof. unfold derived, spoken, generateSsml, wrap. cbn. by rewrite sanitize_escape. Qed.

Ltac shaped_tac :=
  lazymatch goal with
  | |- shaped (spoken _) => left; apply spoken_derived
  | |- shaped name_clarification_activity => right; left; reflexivity
  | |- shaped error_activity => right; right; left; reflexivity
  | |- shaped {| text := summaryText ?s ?t; speak := _ |} =>
      right; right; right; exists s, t; reflexivity
  end.

Ltac outbox_tac :=
  ssimpl; rewrite <- ?app_assoc; cbn [app];
  first [ exists []; split; [by rewrite app_nil_r | constructor]
        | eexists; split; [reflexivity | repeat (constructor; [shaped_tac|]); constructor] ].

Lemma dispatch_outbox userText env t :
  ∃ new, outbox (dispatch userText env t).2 = outbox t ++ new ∧ Forall shaped new.
Proof.
  destruct t as [s reg out]. cbn [outbox].
  unfold dispatch. hsimpl.
  destruct (currentStage s) eqn:Hstage.
  all: unfold_handlers.
  all: repeat hstep.
  all: outbox_tac.
Qed.

Lemma processUserMessage_state_outbox userText env t :
  ∃ new, outbox (processUserMessage_state userText env t).2 = outbox t ++ new ∧
         Forall shaped new.
Proof.
  destruct userText as [u|]; [destruct (decide (u = EmptyString)) as [->|Hne]|].
  - destruct t as [s reg out]. cbn. outbox_tac.
  - rewrite processUserMessage_state_text by done.
    destruct (dispatch_outbox u env (entering u t)) as (new & Hnew & Hshaped).
    unfold try_catch, sendErrorMessage, sendActivity.
    destruct (dispatch u env (entering u t)) as [[[]|] [s1 reg1 out1]];
      cbn [fst snd outbox entering] in *; rewrite Hnew.
    + by exists new.
    + exists (new ++ [error_activity]). rewrite app_assoc. split; [done|].
      apply Forall_app. split; [done|]. constructor; [shaped_tac|constructor].
  - destruct t as [s reg out]. cbn. outbox_tac.
Qed.

Lemma sendWelcomeMessage_state_outbox env t :
  ∃ new, outbox (sendWelcomeMessage_state env t).2 = outbox t ++ new ∧ Forall shaped new.
Proof.
  destruct t as [s reg out]. unfold sendWelcomeMessage_state. unfold_handlers.
  repeat hstep; outbox_tac.
Qed.

Lemma with_state_sent {A} userId (body : Handler A) env bot :
  (∀ t, ∃ new, outbox (body env t).2 = outbox t ++ new ∧ Forall shaped new) →
  Forall shaped (sent bot) → Forall shaped (sent (with_state userId body env bot).2).
Proof.
  intros Hbody Hsent. rewrite with_state_run. cbn.
  destruct (Hbody {| session := session_of userId (interviewStates bot);
                     registered := true; outbox := sent bot |}) as (new & -> & Hnew).
  cbn. by apply Forall_app.
Qed.

Lemma welcome_members_sent context members env bot :
  Forall shaped (sent bot) → Forall shaped (sent (welcome_members context members env bot).2).
Proof.
  revert bot. induction members as [|member rest IH]; intros bot Hsent; cbn; [done|].
  case_bool_decide; [|by apply IH].
  pose proof (with_state_sent (from_id context) sendWelcomeMessage_state env bot
                (sendWelcomeMessage_state_outbox env) Hsent) as Hw.
  unfold sendWelcomeMessage.
  destruct (with_state _ _ _ _) as [[[]|] bot']; cbn in *; [by apply IH|done].
Qed.

(** C9, as the code has it: every message that the bot sends has a spoken
    form, and the messages are of two kinds. For all but three of them the
    spoken form is derived from the text: it is the fixed markup around
    the text in which [&], [<] and [>] are replaced by [&amp;], [&lt;] and
    [&gt;]. The three others carry markup written out by hand, which is
    not derived from their text: the name clarification, the "technical
    difficulties" error message, and the final summary. *)
Theorem C9_spoken_form_of_every_message a env m act :
  act ∈ sent_during a env m →
  is_Some (speak act) ∧
  (speak act = Some (wrap (escape (text act))) ∨ hand_written act).
Proof.
  intros Hin.
  assert (Forall shaped (sent_during a env m)) as Hall.
  { unfold sent_during, run. destruct a as [context|context].
    - unfold onMessage, processUserMessage.
      pose proof (with_state_sent (from_id context)
        (processUserMessage_state (trim <$> activity_text context)) env
        {| interviewStates := m; sent := [] |}
        (processUserMessage_state_outbox _ env)) as Hw.
      destruct (with_state _ _ _ _); cbn in *. by apply Hw.
    - unfold onMembersAdded.
      pose proof (welcome_members_sent context (default [] (membersAdded context)) env
        {| interviewStates := m; sent := [] |}) as Hw.
      destruct (welcome_members _ _ _ _); cbn in *. by apply Hw. }
  rewrite Forall_forall in Hall. destruct (Hall act Hin) as [Hd|Hw].
  - split; [|by left]. unfold derived in Hd. by rewrite Hd.
  - split; [|by right]. destruct Hw as [->|[->|(? & ? & ->)]]; by eexists.
Qed.

(** ** Aggregation *)











(** ** The question budget *)

Lemma new_state_within_budget : within_budget new_state.
Proof. unfold within_budget. cbn. lia. Qed.

Lemma session_of_within_budget userId m :
  (∀ uid s, m !! uid = Some s → within_budget s) → within_budget (session_of userId m).
Proof.
  intros Hall. unfold session_of, getUserState.
  destruct (m !! userId) as [s|] eqn:Hs; cbn; [by eapply Hall|apply new_state_within_budget].
Qed.

(** A turn on a session within the budget leaves it within the budget. *)
Lemma processUserMessage_state_budget userText env t :
  within_budget (session t) →
  within_budget (session (processUserMessage_state userText env t).2).
Proof.
  intros [Hle Hlt].
  destruct userText as [u|]; [destruct (decide (u = EmptyString)) as [->|Hne]|]; [done| |done].
  pose proof (processUserMessage_state_shape u env t Hne) as (Hmax & _ & H). cbn zeta in *.
  unfold within_budget. rewrite Hmax.
  destruct (currentStage (session t)) eqn:Hs; cbn [stage_rank] in *.
  1, 7: rewrite H; ssimpl; rewrite Hs; cbn [stage_rank]; lia.
  1, 2: destruct H as [-> [->| ->]]; cbn [stage_rank]; lia.
  1, 3: destruct H as [-> ->]; cbn [stage_rank]; lia.
  destruct H as [-> ->].
  destruct (Nat.ltb_spec (questionCount (session t) + 1) (maxQuestions (session t)));
    cbn [stage_rank]; lia.
Qed.

Lemma run_budget a env m :
  (∀ uid s, m !! uid = Some s → within_budget s) → ¬ late_join a m →
  ∀ uid s, sessions_after a env m !! uid = Some s → within_budget s.
Proof.
  intros Hall Hjoin uid s Hs.
  destruct (decide (uid = sender a)) as [->|Hother];
    [|rewrite run_other in Hs by done; by eapply Hall].
  destruct a as [context|context]; cbn [sender late_join] in *.
  - destruct (run_message context env m) as [Hm _]. cbn zeta in Hm. rewrite Hm in Hs.
    destruct (registered _); [|by rewrite lookup_delete_eq in Hs].
    rewrite lookup_insert_eq in Hs. simplify_eq.
    apply processUserMessage_state_budget. cbn. by apply session_of_within_budget.
  - revert Hs. unfold sessions_after, run, onMembersAdded.
    generalize (default [] (membersAdded context)). intros members.
    assert (∀ bot : Bot,
      (∀ uid s, interviewStates bot !! uid = Some s → within_budget s) →
      stage_rank (currentStage (session_of (from_id context) (interviewStates bot)))
        ≤ stage_rank jd_questions →
      ∀ s, interviewStates (welcome_members context members env bot).2 !! from_id context
           = Some s → within_budget s) as Hloop.
    { induction members as [|member rest IH]; intros bot Hbot Hstage s'; cbn [welcome_members].
      - cbn. apply Hbot.
      - case_bool_decide; [|by apply IH].
        unfold sendWelcomeMessage. rewrite with_state_run. cbn zeta.
        pose proof (sendWelcomeMessage_state_shape env
          {| session := session_of (from_id context) (interviewStates bot);
             registered := true; outbox := sent bot |}) as (Hreg & Hcount & Hmax & _ & Hs').
        cbn [session registered outbox] in *.
        pose proof (session_of_within_budget (from_id context) _ Hbot) as [Hle Hlt].
        assert (within_budget (session (sendWelcomeMessage_state env
          {| session := session_of (from_id context) (interviewStates bot);
             registered := true; outbox := sent bot |}).2) ∧
          stage_rank (currentStage (session (sendWelcomeMessage_state env
          {| session := session_of (from_id context) (interviewStates bot);
             registered := true; outbox := sent bot |}).2)) ≤ stage_rank jd_questions)
          as [Hw Hr].
        { unfold within_budget. rewrite Hcount, Hmax.
          destruct (delivers env _ _).
          - rewrite Hs'. cbn [stage_rank]. lia.
          - destruct Hs' as [Hs' _]. rewrite Hs'. lia. }
        destruct (sendWelcomeMessage_state env _) as [[[]|] t'];
          cbn [fst snd interviewStates sent] in *; rewrite Hreg.
        + apply IH; cbn [interviewStates].
          * intros uid s0 Hs0. destruct (decide (uid = from_id context)) as [->|Hne].
            -- rewrite lookup_insert_eq in Hs0. by simplify_eq.
            -- rewrite lookup_insert_ne, getUserState_other in Hs0 by done. by eapply Hbot.
          * by rewrite session_of_insert.
        + rewrite lookup_insert_eq. intros [= <-]. done. }
    destruct (welcome_members context members env {| interviewStates := m; sent := [] |})
      as [r bot'] eqn:Hrun. cbn. intros Hs.
    specialize (Hloop {| interviewStates := m; sent := [] |} Hall ltac:(cbn [interviewStates]; lia) s).
    rewrite Hrun in Hloop. by apply Hloop.
Qed.

(** Along any trace without a late join, starting from no sessions at
    all, every session stays within the budget. *)
Lemma questionCount_bounded_without_late_join trace :
  no_late_join trace ∅ →
  ∀ uid s, run_all trace ∅ !! uid = Some s → within_budget s.
Proof.
  assert (∀ m, (∀ uid s, m !! uid = Some s → within_budget s) → no_late_join trace m →
               ∀ uid s, run_all trace m !! uid = Some s → within_budget s) as Hgen.
  { induction trace as [|[a env] rest IH]; intros m Hall Hno; cbn [run_all no_late_join] in *.
    - done.
    - destruct Hno as [Hjoin Hrest]. apply IH; [|done]. by apply run_budget. }
  intros Hno. apply Hgen; [|done]. intros uid s Hs. by rewrite lookup_empty in Hs.
Qed.

(** ** Completion *)

Lemma completeInterview_shape env t :
  let result := completeInterview env t in
  currentStage (session result.2) = complete ∧
  (result.1 = Returns () → registered result.2 = false) ∧
  (result.1 = Throws → registered result.2 = registered t).
Proof.
  destruct t as [s reg out]. unfold completeInterview.
  repeat hstep; ssimpl; repeat split; done.
Qed.

Lemma dispatch_closing userText env t :
  currentStage (session t) = closing → dispatch userText env t = completeInterview env t.
Proof.
  destruct t as [s reg out]. cbn [session]. intros H.
  unfold dispatch. hsimpl. by rewrite H.
Qed.

(** The turn of a session in [closing]: when [completeInterview] returns,
    the store no longer has an entry for the candidate, and the
    candidate's next contact starts from a new session; when it throws,
    the entry stays, in stage [complete]. *)
Lemma closing_turn context env m userText :
  currentStage (session_of (from_id context) m) = closing →
  trim <$> activity_text context = Some userText → userText ≠ EmptyString →
  let t0 := entering userText
              {| session := session_of (from_id context) m; registered := true; outbox := [] |} in
  let m' := sessions_after (MessageActivity context) env m in
  match (completeInterview env t0).1 with
  | Returns _ => m' !! from_id context = None ∧ session_of (from_id context) m' = new_state
  | Throws =>
      ∃ s', m' !! from_id context = Some s' ∧ currentStage s' = complete
  end.
Proof.
  intros Hstage Htext Hne. cbn zeta.
  destruct (run_message context env m) as [Hm _]. cbn zeta in Hm.
  rewrite Htext, processUserMessage_state_text in Hm by done.
  set (t0 := entering userText _) in *.
  assert (currentStage (session t0) = closing) as Ht0 by done.
  destruct (try_catch_error_session (dispatch userText) env t0) as [Hs Hr].
  rewrite Hs, Hr, dispatch_closing in Hm by done.
  pose proof (completeInterview_shape env t0) as (Hc & Hret & Hthrow). cbn zeta in *.
  destruct (completeInterview env t0) as [[[]|] t1]; cbn [fst snd] in *.
  - rewrite Hret in Hm by done.
    assert (sessions_after (MessageActivity context) env m !! from_id context = None)
      as Hnone by (rewrite Hm; apply lookup_delete_eq).
    split; [done|]. unfold session_of, getUserState. by rewrite Hnone.
  - rewrite Hthrow in Hm by done. cbn [registered t0 entering] in Hm.
    rewrite Hm, lookup_insert_eq. eauto.
Qed.

(** ** Further properties of the handlers *)

(** What one pass through the dispatcher leaves alone. *)
Lemma dispatch_frame userText env t :
  let s := session t in
  let s' := session (dispatch userText env t).2 in
  (currentStage s ≠ name_prompt → candidateName s' = candidateName s) ∧
  (currentStage s ≠ jd_selection →
     jdFileName s' = jdFileName s ∧ jdContent s' = jdContent s) ∧
  (currentStage s ≠ pre_screen → currentStage s ≠ jd_questions →
     responses s' = responses s).
Proof.
  destruct t as [s reg out]. cbn [session].
  unfold dispatch. hsimpl.
  destruct (currentStage s) eqn:Hstage.
  all: unfold_handlers.
  all: repeat hstep.
  all: unfold bump in *; ssimpl; repeat case_bool_decide; ssimpl.
  all: repeat split; intros; try done.
Qed.

(** X1: a turn changes [candidateName] only in stage [name_prompt], and
    [jdFileName] and [jdContent] only in stage [jd_selection]; outside
    [pre_screen] and [jd_questions] it leaves [responses] alone. *)
Theorem X1_turn_writes_fields_in_their_stage_only userText env t :
  let s := session t in
  let s' := session (processUserMessage_state userText env t).2 in
  (currentStage s ≠ name_prompt → candidateName s' = candidateName s) ∧
  (currentStage s ≠ jd_selection →
     jdFileName s' = jdFileName s ∧ jdContent s' = jdContent s) ∧
  (currentStage s ≠ pre_screen → currentStage s ≠ jd_questions →
     responses s' = responses s).
Proof.
  cbn zeta.
  destruct userText as [u|]; [destruct (decide (u = EmptyString)) as [->|Hne]|];
    [done| |done].
  rewrite processUserMessage_state_text by done.
  destruct (try_catch_error_session (dispatch u) env (entering u t)) as [-> _].
  exact (dispatch_frame u env (entering u t)).
Qed.

(** X2: the question count never goes down, and it goes up, by exactly
    one, exactly in the turns that carry a text in stage [jd_questions],
    whether or not the assessment of the answer succeeded. *)
Theorem X2_questionCount_steps userText env t :
  questionCount (session (processUserMessage_state userText env t).2)
  = match userText with
    | Some u =>
        if bool_decide (u ≠ EmptyString ∧ currentStage (session t) = jd_questions)
        then questionCount (session t) + 1 else questionCount (session t)
    | None => questionCount (session t)
    end.
Proof.
  destruct userText as [u|]; [destruct (decide (u = EmptyString)) as [->|Hne]|]; [done| |done].
  pose proof (processUserMessage_state_shape u env t Hne) as (_ & _ & H). cbn zeta in H.
  destruct (currentStage (session t)) eqn:Hs.
  7: { rewrite bool_decide_eq_false_2 by (intros [_ ?]; done). by rewrite H. }
  1: { rewrite bool_decide_eq_false_2 by (intros [_ ?]; done). by rewrite H. }
  4: { rewrite bool_decide_eq_true_2 by done. by destruct H as [-> _]. }
  all: rewrite bool_decide_eq_false_2 by (intros [_ ?]; done); by destruct H as [-> _].
Qed.

(** X3: what is fixed at the creation of a session stays fixed: no turn
    and no welcome changes [maxQuestions] or [availableJDs]. *)
Theorem X3_configuration_is_never_changed env t :
  (∀ userText,
     maxQuestions (session (processUserMessage_state userText env t).2)
       = maxQuestions (session t) ∧
     availableJDs (session (processUserMessage_state userText env t).2)
       = availableJDs (session t)) ∧
  maxQuestions (session (sendWelcomeMessage_state env t).2) = maxQuestions (session t) ∧
  availableJDs (session (sendWelcomeMessage_state env t).2) = availableJDs (session t).
Proof.
  split.
  - intros userText.
    destruct userText as [u|]; [destruct (decide (u = EmptyString)) as [->|Hne]|];
      [done| |done].
    rewrite processUserMessage_state_text by done.
    destruct (try_catch_error_session (dispatch u) env (entering u t)) as [-> _].
    pose proof (dispatch_shape u env (entering u t)) as (Hm & Ha & _). done.
  - destruct t as [s reg out]. unfold sendWelcomeMessage_state. unfold_handlers.
    repeat hstep; ssimpl; done.
Qed.

(** X4: the history is append-only. A turn with a text appends the text as
    a [user] entry and, after it, what the bot said; a blank turn appends
    nothing; the welcome only appends. *)
Theorem X4_history_is_append_only env t :
  (∀ userText,
     ∃ rest,
       conversationHistory (session (processUserMessage_state userText env t).2)
       = conversationHistory (session t)
         ++ match userText with
            | Some u =>
                if bool_decide (u = EmptyString) then []
                else {| role := user; content := u |} :: rest
            | None => []
            end) ∧
  ∃ rest, conversationHistory (session (sendWelcomeMessage_state env t).2)
          = conversationHistory (session t) ++ rest.
Proof.
  split.
  - intros userText.
    destruct userText as [u|]; [destruct (decide (u = EmptyString)) as [->|Hne]|].
    + exists []. cbn. by rewrite app_nil_r.
    + rewrite processUserMessage_state_text, bool_decide_eq_false_2 by done.
      destruct (try_catch_error_session (dispatch u) env (entering u t)) as [-> _].
      destruct (dispatch_history u env (entering u t)) as [rest ->].
      exists rest. unfold entering. ssimpl. by rewrite <- app_assoc.
    + exists []. cbn. by rewrite app_nil_r.
  - destruct t as [s reg out]. unfold sendWelcomeMessage_state. unfold_handlers.
    repeat hstep; ssimpl; rewrite <- ?app_assoc;
      first [by eexists | by (exists []; rewrite app_nil_r)].
Qed.

(** X5: with a channel that delivers, a message turn never throws,
    whatever the backend answers and whatever the session holds, and the
    candidate gets exactly one message in reply. *)
Theorem X5_one_reply_per_turn userText env t :
  delivering env →
  (processUserMessage_state userText env t).1 = Returns () ∧
  ∃ reply, outbox (processUserMessage_state userText env t).2 = outbox t ++ [reply].
Proof.
  intros Hd. unfold delivering in Hd. destruct t as [s reg out].
  destruct userText as [u|]; [destruct (decide (u = EmptyString)) as [->|Hne]|].
  - unfold processUserMessage_state. rewrite ?bool_decide_eq_true_2 by done.
    hsimpl. rewrite Hd. eauto.
  - rewrite processUserMessage_state_text by done.
    unfold entering, dispatch. hsimpl.
    destruct (currentStage _) eqn:Hstage.
    all: unfold_handlers.
    all: repeat (hsimpl; rewrite ?Hd; hstep).
    all: hsimpl; rewrite ?Hd; hsimpl; rewrite ?Hd; cbn [fst snd outbox].
    all: split; [done|eauto].
  - unfold processUserMessage_state. rewrite ?bool_decide_eq_true_2 by done.
    hsimpl. rewrite Hd. eauto.
Qed.

(** X6: the turn of [name_prompt]. The backend's answer is trimmed and
    stripped of quotes; if something other than ['N/A'] (in any casing) is
    left, it becomes the candidate's name as it is, the stage becomes
    [pre_screen], and the first message sent is the pre-screen question
    with the name filled in. Otherwise, and when the call throws, the name
    and the stage stay and the first message sent is the request to state
    the name clearly. *)
Theorem X6_name_extraction userText env t :
  userText ≠ EmptyString → currentStage (session t) = name_prompt →
  let s := session t in
  let t' := (processUserMessage_state (Some userText) env t).2 in
  let s' := session t' in
  match name_reply env ≫= λ content, Returns (extracted_name content) with
  | Returns (Some name) =>
      candidateName s' = Some name ∧ currentStage s' = pre_screen ∧
      ∃ rest, outbox t' = outbox t
                ++ spoken (JS.replace "{name}" name fixedFlow.pre_screen_question) :: rest
  | _ =>
      candidateName s' = candidateName s ∧ currentStage s' = name_prompt ∧
      ∃ rest, outbox t' = outbox t ++ name_clarification_activity :: rest
  end.
Proof.
  intros Hne Hstage. cbn zeta. rewrite processUserMessage_state_text by done.
  destruct t as [s reg out]. unfold entering, dispatch, handleNameExtraction.
  cbn [session registered outbox] in *. hsimpl. ssimpl. rewrite Hstage.
  destruct (name_reply env) as [[c|]|]; hsimpl; unfold extracted_name; cbn zeta.
  - set (clean := removeAll quote (trim c)).
    destruct (decide (toUpperCase clean = "N/A")) as [He|Hn].
    { rewrite (bool_decide_eq_false_2 (Some (toUpperCase clean) ≠ Some "N/A"))
        by (intros H; apply H; by rewrite He).
      rewrite (bool_decide_eq_true_2 _ He), orb_true_r.
      unfold_handlers. repeat hstep; ssimpl; rewrite <- ?app_assoc; cbn [app];
        repeat split; eauto. }
    rewrite (bool_decide_eq_true_2 (Some (toUpperCase clean) ≠ Some "N/A"))
      by (intros [= H]; done).
    rewrite (bool_decide_eq_false_2 _ Hn), orb_false_r.
    destruct (bool_decide (clean = EmptyString)) eqn:Hempty.
    + unfold_handlers. repeat hstep; ssimpl; rewrite <- ?app_assoc; cbn [app];
        repeat split; eauto.
    + apply bool_decide_eq_false in Hempty.
      unfold_handlers. hsimpl. ssimpl.
      assert (or_string (Some clean) "there" = clean) as ->
        by (cbn; by rewrite bool_decide_eq_false_2).
      repeat (hsimpl; ssimpl; rewrite ?bool_decide_eq_true_2 by done; hstep).
      all: ssimpl; rewrite <- ?app_assoc; cbn [app]; repeat split; eauto.
  - unfold_handlers. repeat hstep; ssimpl; rewrite <- ?app_assoc; cbn [app];
      repeat split; eauto.
  - unfold_handlers. repeat hstep; ssimpl; rewrite <- ?app_assoc; cbn [app];
      repeat split; eauto.
Qed.

Lemma length_append (a b : string) :
  String.length (a +:+ b) = String.length a + String.length b.
Proof.
  induction a as [|c a IH]; [done|].
  rewrite append_cons. cbn [String.length]. by rewrite IH.
Qed.

(** X7: whatever the backend does, [generateDynamicQuestion] returns a
    question and changes nothing, and the question has at least 20
    characters. It is the backend's text, trimmed, exactly when that has
    20 characters or more; when the backend returns a shorter text or
    none, it is the stock question about a complex challenge, and when
    the call throws, the stock question about a relevant project, each
    with the ordinal [questionCount + 1]. *)
Theorem X7_question_is_never_short env t :
  ∃ question,
    generateDynamicQuestion env t = (Returns question, t) ∧
    20 ≤ String.length question ∧
    question =
      match question_reply env with
      | Returns content =>
          match trim <$> content with
          | Some text =>
              if 20 <=? String.length text then text
              else "For question " +:+ pretty (questionCount (session t) + 1) +:+
                   ", describe a complex challenge you solved that aligns with the role."
          | None =>
              "For question " +:+ pretty (questionCount (session t) + 1) +:+
              ", describe a complex challenge you solved that aligns with the role."
          end
      | Throws =>
          "For question " +:+ pretty (questionCount (session t) + 1) +:+
          ", tell me about a relevant project from your experience."
      end.
Proof.
  destruct t as [s reg out]. unfold generateDynamicQuestion. hsimpl.
  destruct (question_reply env) as [[q|]|]; cbn [fmap option_fmap option_map]; hsimpl.
  - destruct (bool_decide (trim q = EmptyString) || (String.length (trim q) <? 20)) eqn:Hq;
      hsimpl.
    + eexists. split; [done|]. split; [rewrite !length_append; cbn [String.length]; lia|].
      rewrite (proj2 (Nat.leb_gt 20 (String.length (trim q)))); [done|].
      apply orb_true_iff in Hq as [Hq|Hq].
      * apply bool_decide_eq_true in Hq. rewrite Hq. cbn [String.length]. lia.
      * by apply Nat.ltb_lt in Hq.
    + apply orb_false_iff in Hq as [_ Hq]. apply Nat.ltb_ge in Hq.
      eexists. split; [done|]. split; [done|].
      by rewrite (proj2 (Nat.leb_le 20 (String.length (trim q)))).
  - eexists. split; [done|]. split; [|done]. rewrite !length_append. cbn [String.length]. lia.
  - eexists. split; [done|]. split; [|done]. rewrite !length_append. cbn [String.length]. lia.
Qed.

Lemma append_assoc (a b c : string) : (a +:+ b) +:+ c = a +:+ (b +:+ c).
Proof.
  induction a as [|x a IH]; [done|]. rewrite !append_cons. by rewrite IH.
Qed.

(** The assessment writes under its four keys and nowhere else. *)
Lemma handleGPTResponseAnalysis_frame userText env t key :
  key ∉ assessment_keys (assessment_stage (session t)) →
  responses (session (handleGPTResponseAnalysis userText env t).2) !! key
  = responses (session t) !! key.
Proof.
  intros Hkey. destruct t as [s reg out]. cbn [session] in *.
  unfold assessment_keys in Hkey.
  assert (key ≠ assessment_stage s +:+ "_gpt_summary" ∧
          key ≠ assessment_stage s +:+ "_clarity_score" ∧
          key ≠ assessment_stage s +:+ "_relevance_score" ∧
          key ≠ assessment_stage s +:+ "_entities") as (H1 & H2 & H3 & H4)
    by (repeat split; intros ->; apply Hkey; set_solver).
  unfold handleGPTResponseAnalysis. hsimpl.
  destruct (analysis_reply env) as [c|]; hsimpl;
    [destruct (JSON_parse _) as [[]|]; hsimpl|]; ssimpl;
    destruct (bool_decide (currentStage s = jd_questions)); hsimpl; ssimpl;
    rewrite ?lookup_insert_ne by done; done.
Qed.

Lemma raw_response_key_is_free stage :
  stage +:+ "_raw_response" ∉ assessment_keys stage.
Proof.
  unfold assessment_keys. intros Hin.
  repeat (apply elem_of_cons in Hin as [Hin|Hin]; [by apply append_inj_r in Hin|]).
  by apply elem_of_nil in Hin.
Qed.

(** The assessment of an answer keeps what the turn stored under the raw
    response key of its label. *)
Lemma handleGPTResponseAnalysis_keeps_raw userText env s reg out :
  let s1 := set_response (assessment_stage s +:+ "_raw_response") (JStr userText)
              (push_history user userText s) in
  responses
    (session (handleGPTResponseAnalysis userText env
                {| session := s1; registered := reg; outbox := out |}).2)
    !! (assessment_stage s +:+ "_raw_response")
  = Some (JStr userText).
Proof.
  cbn zeta.
  rewrite handleGPTResponseAnalysis_frame.
  - ssimpl. apply lookup_insert_eq.
  - cbn [session]. unfold assessment_stage at 2. ssimpl. apply raw_response_key_is_free.
Qed.

(** X8: the candidate's answer is kept. After a turn in [pre_screen] or
    [jd_questions] the text is in [responses] under the label of that
    turn followed by [_raw_response], whatever the assessment recorded. *)
Theorem X8_raw_answer_is_recorded userText env t :
  userText ≠ EmptyString →
  currentStage (session t) = pre_screen ∨ currentStage (session t) = jd_questions →
  responses (session (processUserMessage_state (Some userText) env t).2)
    !! (assessment_stage (session t) +:+ "_raw_response")
  = Some (JStr userText).
Proof.
  intros Hne Hstage. rewrite processUserMessage_state_text by done.
  destruct (try_catch_error_session (dispatch userText) env (entering userText t)) as [-> _].
  destruct t as [s reg out]. unfold entering. cbn [session registered outbox] in *.
  pose proof (handleGPTResponseAnalysis_keeps_raw userText env s reg out) as Hkeep.
  cbn zeta in Hkeep.
  unfold dispatch. hsimpl. ssimpl.
  destruct Hstage as [Hs|Hs]; rewrite Hs.
  - assert (assessment_stage s = "pre_screen") as Hl
      by (unfold assessment_stage; rewrite Hs; by rewrite bool_decide_eq_false_2).
    rewrite Hl in *. change ("pre_screen" +:+ "_raw_response") with "pre_screen_raw_response" in *.
    hsimpl. ssimpl. revert Hkeep.
    match goal with
    | |- context [handleGPTResponseAnalysis userText env ?t1] =>
        destruct (handleGPTResponseAnalysis_run userText env t1) as [rs ->]
    end.
    cbn [session snd]. unfold bump. ssimpl. rewrite Hs.
    rewrite bool_decide_eq_false_2 by done. ssimpl. intros Hkeep.
    unfold askNextDynamicQuestion. repeat hstep; ssimpl; done.
  - assert (assessment_stage s = "jd_q" +:+ pretty (questionCount s + 1)) as Hl
      by (unfold assessment_stage; rewrite Hs; by rewrite bool_decide_eq_true_2).
    rewrite Hl, append_assoc in *. hsimpl. ssimpl.
    revert Hkeep.
    match goal with
    | |- context [handleGPTResponseAnalysis userText env ?t1] =>
        destruct (handleGPTResponseAnalysis_run userText env t1) as [rs ->]
    end.
    cbn [session snd]. unfold bump. ssimpl. rewrite Hs.
    rewrite bool_decide_eq_true_2 by done. ssimpl. intros Hkeep.
    unfold askNextDynamicQuestion, sendNextQuestion. repeat hstep; ssimpl; done.
Qed.

Lemma occurs_append c (a b : string) : occurs c (a +:+ b) = occurs c a || occurs c b.
Proof.
  induction a as [|d a IH]; [done|].
  rewrite append_cons. cbn [occurs]. by rewrite IH, orb_assoc.
Qed.

(** X9: the spoken form made by [generateSsml] is the fixed markup around
    the sanitized text, and the sanitized text contains neither [<] nor
    [>], whatever the text: the three passes never let a character of the
    text through as markup. *)
Theorem X9_sanitized_text_has_no_markup text :
  generateSsml text = wrap (escape text) ∧
  occurs "<" (escape text) = false ∧ occurs ">" (escape text) = false.
Proof.
  split.
  - unfold generateSsml, wrap. by rewrite sanitize_escape.
  - induction text as [|c s [IH1 IH2]]; [done|].
    cbn [escape]. rewrite !occurs_append, IH1, IH2, !orb_false_r.
    repeat case_bool_decide; subst; cbn [occurs]; try done.
    rewrite !orb_false_r. split; by apply bool_decide_eq_false.
Qed.

(** X10: a conversation update that adds no one, or no one but the bot
    itself, sends nothing and leaves the store as it is: no session is
    created for it. *)
Theorem X10_bot_joining_alone_is_ignored context env m :
  Forall (λ member, member = recipient_id context) (default [] (membersAdded context)) →
  run (ConversationUpdate context) env m = (Returns (), m, []).
Proof.
  intros Hall. unfold run, onMembersAdded.
  assert (∀ bot, welcome_members context (default [] (membersAdded context)) env bot
                 = (Returns (), bot)) as ->; [|done].
  induction Hall as [|member rest Hm _ IH]; intros bot; cbn [welcome_members]; [done|].
  by rewrite bool_decide_eq_false_2 by (intros H; by apply H).
Qed.

(** X11: no inbound activity touches the session of anyone but its
    sender: over a whole trace, a candidate who sends nothing keeps the
    session they had, or keeps having none. *)
Theorem X11_sessions_are_isolated trace m userId :
  Forall (λ step, sender step.1 ≠ userId) trace →
  run_all trace m !! userId = m !! userId.
Proof.
  intros Hall. revert m. induction Hall as [|[a env] rest Ha _ IH]; intros m; [done|].
  cbn [run_all]. rewrite IH. apply run_other. cbn in Ha. done.
Qed.

(** X12: an assessment is read back as it was given. When the backend's
    answer parses to an object whose [ClarityScore] and [RelevanceScore]
    are integers from 1 to 5, the scores that the final report reads
    under the label of the turn are these two numbers, and the pair
    counts as valid. *)
Theorem X12_assessment_round_trip userText env t content fields c r :
  analysis_reply env = Returns content →
  JSON_parse (or_string content "{}") = Returns (JObj fields) →
  assoc "ClarityScore" fields = Some (JNum c) → (1 ≤ c ≤ 5)%Z →
  assoc "RelevanceScore" fields = Some (JNum r) → (1 ≤ r ≤ 5)%Z →
  let s' := session (handleGPTResponseAnalysis userText env t).2 in
  scores s' (assessment_stage (session t)) = (Z2F c, Z2F r) ∧
  parseable (scores s' (assessment_stage (session t))) = true.
Proof.
  intros Hreply Hparse Hc Hcr Hr Hrr. cbn zeta.
  assert (∀ z, (1 ≤ z ≤ 5)%Z →
            score (Some (or_else (Some (JNum z)) (JStr "N/A"))) = Z2F z ∧
            isNaN (Z2F z) = false) as Hnum.
  { intros z Hz. assert (z = 1 ∨ z = 2 ∨ z = 3 ∨ z = 4 ∨ z = 5)%Z as Hcases by lia.
    destruct Hcases as [->|[->|[->|[->| ->]]]]; vm_compute; done. }
  destruct (Hnum c Hcr) as [Hpc Hnc]. destruct (Hnum r Hrr) as [Hpr Hnr].
  assert (∀ a b : string, a ≠ b →
            assessment_stage (session t) +:+ a ≠ assessment_stage (session t) +:+ b) as Hne
    by (intros a b Hab Heq; by apply Hab, (append_inj_r (assessment_stage (session t)))).
  destruct t as [s reg out]. cbn [session] in *.
  unfold handleGPTResponseAnalysis. hsimpl. rewrite Hreply. hsimpl. rewrite Hparse. hsimpl.
  rewrite Hc, Hr.
  assert (∀ s0 : InterviewState, scores s0 (assessment_stage s) = (Z2F c, Z2F r) →
            parseable (scores s0 (assessment_stage s)) = true) as Hvalid.
  { intros s0 ->. unfold parseable. cbn [fst snd]. by rewrite Hnc, Hnr. }
  ssimpl.
  destruct (bool_decide (currentStage s = jd_questions)); hsimpl; ssimpl.
  all: split; [|apply Hvalid].
  all: unfold scores; ssimpl.
  all: repeat (rewrite lookup_insert_eq || rewrite lookup_insert_ne by (by apply Hne)).
  all: by rewrite Hpc, Hpr.
Qed.

Lemma validateEnvironment_returns process_env :
  validateEnvironment process_env = inr ()
  ↔ ∀ key, key ∈ required → ∃ value, process_env !! key = Some value ∧ value ≠ EmptyString.
Proof.
  assert (validateEnvironment process_env = inr () ↔ missing process_env = []) as Hiff.
  { unfold validateEnvironment. destruct (missing process_env); cbn; split; done. }
  etrans; [exact Hiff|]. clear Hiff.
  unfold missing. split.
  - intros Hnil key Hin.
    assert (or_string (process_env !! key) EmptyString ≠ EmptyString) as Hset.
    { intros Hk.
      assert (In key (List.filter
        (fun key => bool_decide (or_string (process_env !! key) EmptyString = EmptyString))
        required)) as Hf.
      { apply filter_In. split; [by apply list_elem_of_In|]. by apply bool_decide_eq_true. }
      by rewrite Hnil in Hf. }
    destruct (process_env !! key) as [value|]; [|done].
    exists value. split; [done|]. by intros ->.
  - intros Hset.
    destruct (List.filter _ required) as [|key rest] eqn:Hf; [done|].
    assert (In key (key :: rest)) as Hin by (by left). rewrite <- Hf in Hin.
    apply filter_In in Hin as [Hin Hb]. apply list_elem_of_In in Hin.
    destruct (Hset key Hin) as (value & Hv & Hne). rewrite Hv in Hb. cbn in Hb.
    rewrite (bool_decide_eq_false_2 _ Hne) in Hb.
    apply bool_decide_eq_true in Hb. done.
Qed.

(** X13: [validateEnvironment] lets the bot start exactly when each of the
    nine required variables is set to a non-empty value; otherwise it
    throws, and the message lists the variables that are unset or empty,
    in the order of the list. *)
Theorem X13_validation_guards_startup process_env :
  (validateEnvironment process_env = inr ()
   ↔ Forall (λ key, ∃ value, process_env !! key = Some value ∧ value ≠ EmptyString) required) ∧
  (validateEnvironment process_env = inr () ∨
   validateEnvironment process_env =
     inl ("Missing required environment variables: " +:+ join ", " (missing process_env))).
Proof.
  split; [rewrite Forall_forall; apply validateEnvironment_returns|].
  unfold validateEnvironment. destruct (missing process_env); cbn; auto.
Qed.

(** X14: once [validateEnvironment] has let the bot start, every new
    session has at least one selectable job description: the list that
    [getUserState] splits out of [AVAILABLE_JDS] is not empty. *)
Theorem X14_validated_sessions_have_job_descriptions process_env userId interviewStates :
  validateEnvironment process_env = inr () →
  AVAILABLE_JDS = process_env !! "AVAILABLE_JDS" →
  interviewStates !! userId = None →
  availableJDs (getUserState userId interviewStates).1 ≠ [] ∧
  availableJDs <$> (getUserState userId interviewStates).2 !! userId
    = Some (availableJDs (getUserState userId interviewStates).1).
Proof.
  intros Hok' Henv Hnone.
  pose proof (proj1 (validateEnvironment_returns _) Hok') as Hok.
  destruct (Hok "AVAILABLE_JDS") as (value & Hv & _);
    [apply list_elem_of_In; unfold required; do 8 right; by left|].
  unfold getUserState. rewrite Hnone. cbn [fst snd]. rewrite lookup_insert_eq. split; [|done].
  unfold new_state. cbn [availableJDs]. rewrite Henv, Hv. cbn.
  destruct value; cbn; [done|]. case_bool_decide; [done|].
  by destruct (split "," value).
Qed.

(** X15: an accepted selection always gets a job description. The stored
    [jdContent] is the text of the blob when the download succeeds; when
    the blob is missing or the download fails, [fetchJobDescription]
    does not throw: the content is the stock description that names the
    file, and the interview goes on to [name_prompt] all the same. *)
Theorem X15_job_description_falls_back userText env t content chosen :
  userText ≠ EmptyString → currentStage (session t) = jd_selection →
  selection_reply env = Returns content → accepted (session t) content chosen →
  let t' := (processUserMessage_state (Some userText) env t).2 in
  jdFileName (session t') = Some chosen ∧ currentStage (session t') = name_prompt ∧
  jdContent (session t') =
    match blob_download env chosen with
    | Returns downloaded => downloaded
    | Throws =>
        "JD Fetch Failed for " +:+ chosen +:+
        ". Default Role: Senior Consultant. Key Skills: Leadership, Project Management, Azure."
    end ∧
  ∃ rest, outbox t' = outbox t ++ spoken fixedFlow.name_prompt_question :: rest.
Proof.
  intros Hne Hstage Hreply (Hc & Hin & Hna & Hnonempty). cbn zeta.
  rewrite processUserMessage_state_text by done.
  destruct t as [s reg out]. unfold entering, dispatch, handleJDSelection, fetchJobDescription.
  cbn [session registered outbox] in *.
  destruct content as [c|]; [|done]. cbn [fmap option_fmap option_map] in Hc.
  injection Hc as Hc. hsimpl. ssimpl. rewrite Hstage, Hreply. hsimpl. ssimpl. rewrite Hc.
  rewrite (proj2 (selection_test s chosen)) by done.
  destruct (blob_download env chosen) as [downloaded|]; repeat hstep; ssimpl;
    rewrite <- ?app_assoc; cbn [app]; repeat split; eauto.
Qed.

Lemma sendWelcomeMessage_state_run env t :
  delivering env →
  sendWelcomeMessage_state env t =
    (Returns (), {| session := welcomed (session t); registered := registered t;
                    outbox := outbox t ++ welcome_activities (session t) |}).
Proof.
  intros Hd. destruct t as [s reg out].
  unfold sendWelcomeMessage_state, askForJDSelection, welcomed, welcome_activities, roles_question.
  hsimpl. rewrite !Hd. ssimpl. by rewrite <- app_assoc.
Qed.

Lemma insert_getUserState userId s m :
  <[userId := s]> (getUserState userId m).2 = <[userId := s]> m.
Proof.
  unfold getUserState. destruct (m !! userId); cbn [snd]; [done|]. apply insert_insert_eq.
Qed.

Lemma iter_welcomed_availableJDs k s :
  availableJDs (Nat.iter k welcomed s) = availableJDs s.
Proof. induction k as [|k IH]; [done|]. cbn [Nat.iter]. by rewrite <- IH. Qed.

Lemma welcome_members_run context members env bot :
  delivering env →
  let k := length (filter (λ member, member ≠ recipient_id context) members) in
  let s0 := session_of (from_id context) (interviewStates bot) in
  welcome_members context members env bot =
    (Returns (),
     {| interviewStates :=
          match k with
          | 0 => interviewStates bot
          | S _ => <[from_id context := Nat.iter k welcomed s0]> (interviewStates bot)
          end;
        sent := sent bot ++ mjoin (replicate k (welcome_activities s0)) |}).
Proof.
  intros Hd. revert bot. induction members as [|member rest IH]; intros [m out]; cbn zeta.
  - cbn. by rewrite app_nil_r.
  - cbn [welcome_members]. case_bool_decide as Hmember.
    + rewrite filter_cons_True by done. cbn [length].
      unfold sendWelcomeMessage. rewrite with_state_run. cbn zeta.
      rewrite sendWelcomeMessage_state_run by done. cbn [fst snd registered session outbox].
      rewrite insert_getUserState, IH. cbn [interviewStates sent].
      rewrite session_of_insert. f_equal. f_equal.
      * destruct (length _) as [|k]; [done|].
        rewrite insert_insert_eq. f_equal. by rewrite <- !Nat.iter_succ_r.
      * cbn [replicate mjoin list_join]. by rewrite <- app_assoc.
    + rewrite filter_cons_False by (intros H; by apply H). apply IH.
Qed.

Lemma iter_welcomed_fields k s :
  let s' := Nat.iter (S k) welcomed s in
  currentStage s' = jd_selection ∧
  candidateName s' = candidateName s ∧ jdFileName s' = jdFileName s ∧
  jdContent s' = jdContent s ∧ availableJDs s' = availableJDs s ∧
  questionCount s' = questionCount s ∧ maxQuestions s' = maxQuestions s ∧
  responses s' = responses s ∧
  length (conversationHistory s') = length (conversationHistory s) + 2 * S k.
Proof.
  cbn zeta. induction k as [|k (H1 & H2 & H3 & H4 & H5 & H6 & H7 & H8 & H9)].
  - change (Nat.iter 1 welcomed s) with (welcomed s).
    unfold welcomed. ssimpl. rewrite !length_app. cbn [length].
    repeat split; lia.
  - rewrite Nat.iter_succ. set (s1 := Nat.iter (S k) welcomed s) in *.
    unfold welcomed. ssimpl. rewrite !length_app. cbn [length]. repeat split; try done. lia.
Qed.

(** X16: a conversation update that adds members other than the bot
    welcomes the sender once for each of them: with a channel that
    delivers, each welcome sends the greeting and the list of roles, and
    the sender's session, the existing one or a new one, ends in stage
    [jd_selection] with everything but the stage and the history as it
    was: the welcome resets neither the count nor the answers. *)
Theorem X16_welcome_restarts_the_stage_only context env m :
  delivering env → newcomers context ≠ [] →
  let s0 := session_of (from_id context) m in
  let k := length (newcomers context) in
  ∃ s', run (ConversationUpdate context) env m =
          (Returns (), <[from_id context := s']> m,
           mjoin (replicate k (welcome_activities s0))) ∧
        currentStage s' = jd_selection ∧
        candidateName s' = candidateName s0 ∧ jdFileName s' = jdFileName s0 ∧
        jdContent s' = jdContent s0 ∧ availableJDs s' = availableJDs s0 ∧
        questionCount s' = questionCount s0 ∧ maxQuestions s' = maxQuestions s0 ∧
        responses s' = responses s0 ∧
        length (conversationHistory s') = length (conversationHistory s0) + 2 * k.
Proof.
  intros Hd Hnew. cbn zeta. unfold newcomers in *.
  exists (Nat.iter (length (filter (λ member, member ≠ recipient_id context)
                              (default [] (membersAdded context))))
                   welcomed (session_of (from_id context) m)).
  split.
  - unfold run, onMembersAdded. rewrite welcome_members_run by done.
    cbn [interviewStates sent app].
    destruct (filter _ _) as [|member rest]; [done|]. done.
  - destruct (filter _ _) as [|member rest]; [done|]. apply iter_welcomed_fields.
Qed.

(** X17: in the four stages of the dialogue the history mirrors what was
    said. With a channel that delivers, a turn with a text appends the
    text and then the text of the one message the candidate got in
    reply. The only exception is the error message, which is never
    recorded, and which in these stages is the reply only when the
    selection call has thrown. *)
Theorem X17_history_mirrors_dialogue userText env t :
  delivering env → userText ≠ EmptyString →
  currentStage (session t) = jd_selection ∨ currentStage (session t) = name_prompt ∨
  currentStage (session t) = pre_screen ∨ currentStage (session t) = jd_questions →
  let t' := (processUserMessage_state (Some userText) env t).2 in
  ∃ reply,
    outbox t' = outbox t ++ [reply] ∧
    (conversationHistory (session t')
       = conversationHistory (session t)
         ++ [{| role := user; content := userText |};
             {| role := assistant; content := text reply |}]
     ∨ (currentStage (session t) = jd_selection ∧ selection_reply env = Throws ∧
        reply = error_activity ∧
        conversationHistory (session t')
          = conversationHistory (session t) ++ [{| role := user; content := userText |}])).
Proof.
  intros Hd Hne Hstage. unfold delivering in Hd. destruct t as [s reg out]. cbn zeta.
  rewrite processUserMessage_state_text by done.
  unfold entering, dispatch. hsimpl. ssimpl.
  destruct (currentStage s) eqn:Hs; try (exfalso; intuition congruence); clear Hstage.
  all: unfold_handlers.
  all: repeat (hsimpl; rewrite ?Hd; hstep).
  all: hsimpl; rewrite ?Hd; hsimpl; rewrite ?Hd; ssimpl.
  all: unfold bump; ssimpl; rewrite ?Hs; repeat case_bool_decide; try done; ssimpl.
  all: eexists; split; [reflexivity|].
  all: first [left; rewrite <- app_assoc; reflexivity | right; repeat split; done].
Qed.

(** ** When the final report can be built *)

Lemma ToString_printable : ∀ v, returns (ToString v) = printable v.
Proof.
  fix IH 1. intros [|[]|n|s|items|fields]; cbn [ToString printable returns]; try done.
  - set (elements := fix elements (l : list JsValue) : Outcome (list string) := _).
    transitivity (returns (elements items)); [by destruct (elements items)|].
    assert (∀ e l, elements (e :: l) =
              match (match e with JNull => Returns EmptyString | _ => ToString e end) with
              | Returns s =>
                  match elements l with
                  | Returns ss => Returns (s :: ss)
                  | Throws => Throws
                  end
              | Throws => Throws
              end) as Hstep by reflexivity.
    induction items as [|e items IHitems]; [done|].
    cbn [forallb]. rewrite <- IHitems, <- (IH e), Hstep. clear IHitems Hstep.
    destruct e as [|b|n|s|items'|fields]; cbv beta iota.
    5: by destruct (ToString (JArr items')), (elements items).
    5: by destruct (ToString (JObj fields)), (elements items).
    all: cbn [returns ToString andb]; try (by destruct (elements items)).
    by destruct b, (elements items).
  - by destruct (assoc "toString" fields).
Qed.

Lemma template_printable v : returns (template v) = printable_opt v.
Proof. destruct v as [v|]; [apply ToString_printable|done]. Qed.

Lemma parseInt_printable v : returns (parseInt v) = printable_opt v.
Proof. unfold parseInt. rewrite <- template_printable. by destruct (template v). Qed.

Lemma entity_text_listable e : returns (entity_text e) = entity_listable e.
Proof.
  destruct e as [|b|n|s|items|fields]; try done.
  unfold entity_text, entity_listable. cbn [Get mbind Outcome_bind].
  rewrite <- !template_printable.
  by destruct (template (assoc "text" fields)), (template (assoc "entity" fields)).
Qed.

Lemma map_outcome_entity_text items :
  returns (map_outcome entity_text items) = forallb entity_listable items.
Proof.
  induction items as [|e items IH]; [done|].
  cbn [map_outcome forallb]. rewrite <- IH, <- entity_text_listable.
  by destruct (entity_text e), (map_outcome entity_text items).
Qed.

Lemma report_stage_listable state acc stage :
  returns (report_stage state acc stage) = listable state stage.
Proof.
  unfold report_stage, listable.
  rewrite <- !parseInt_printable, <- ToString_printable.
  destruct (parseInt (responses state !! (stage +:+ "_clarity_score"))); [|done].
  destruct (parseInt (responses state !! (stage +:+ "_relevance_score"))); [|done].
  cbn [mbind Outcome_bind returns andb].
  destruct (responses state !! (stage +:+ "_entities")) as [[| | | |items|]|];
    cbn [mbind Outcome_bind returns andb].
  5: { rewrite <- map_outcome_entity_text.
       destruct (map_outcome entity_text items); cbn; [|done].
       by destruct (ToString _). }
  all: by destruct (ToString _).
Qed.

Lemma report_loop_reportable state acc stages :
  returns (report_loop state acc stages) = forallb (listable state) stages.
Proof.
  revert acc. induction stages as [|stage stages IH]; intros acc; [done|].
  cbn [report_loop forallb]. rewrite <- (report_stage_listable state acc stage).
  destruct (report_stage state acc stage) as [acc'|]; cbn; [apply IH|done].
Qed.

Lemma report_stage_ext state1 state acc stage :
  responses state1 = responses state →
  report_stage state1 acc stage = report_stage state acc stage.
Proof. intros H. unfold report_stage. by rewrite H. Qed.

Lemma report_loop_ext state1 state acc stages :
  responses state1 = responses state →
  report_loop state1 acc stages = report_loop state acc stages.
Proof.
  intros H. revert acc. induction stages as [|stage stages IH]; intros acc; [done|].
  cbn [report_loop]. rewrite (report_stage_ext state1 state) by done.
  destruct (report_stage state acc stage); cbn; [apply IH|done].
Qed.

(** [completeInterview] with a channel that delivers, by whether the
    report can be built. *)
Lemma completeInterview_run env t :
  delivering env →
  completeInterview env t =
    match report_loop (session t) no_totals (report_stages (session t)) with
    | Returns totals =>
        let summary := {| text := summaryText (session t) totals;
                          speak := Some (finalSsml (session t) totals) |} in
        (Returns (),
         {| session := push_history assistant (text summary)
                         (set_currentStage complete (session t));
            registered := false; outbox := outbox t ++ [summary] |})
    | Throws =>
        (Throws, {| session := set_currentStage complete (session t);
                    registered := registered t; outbox := outbox t |})
    end.
Proof.
  intros Hd. destruct t as [s reg out]. unfold completeInterview. hsimpl. ssimpl.
  change (report_stages (set_currentStage complete s)) with (report_stages s).
  rewrite (report_loop_ext (set_currentStage complete s) s) by done.
  destruct (report_loop s no_totals (report_stages s)) as [totals|]; [|done].
  rewrite Hd. done.
Qed.

(** X18: the last turn of an interview, with a channel that delivers.
    The session is removed from the store exactly when the report can be
    built: for each reported stage, the recorded scores and summary can
    be converted to strings and the recorded list of entities holds no
    [null] and no entity whose text or type cannot be converted. The
    candidate then gets the summary. Otherwise the candidate gets the
    error message and the session stays, in stage [complete]. *)
Theorem X18_interview_is_cleared_when_reportable context env m userText :
  delivering env →
  currentStage (session_of (from_id context) m) = closing →
  trim <$> activity_text context = Some userText → userText ≠ EmptyString →
  let s := session_of (from_id context) m in
  let m' := sessions_after (MessageActivity context) env m in
  let sent := sent_during (MessageActivity context) env m in
  (m' !! from_id context = None ↔ reportable s = true) ∧
  (reportable s = true →
     ∃ totals, report_loop s no_totals (report_stages s) = Returns totals ∧
               sent = [{| text := summaryText s totals; speak := Some (finalSsml s totals) |}]) ∧
  (reportable s = false →
     sent = [error_activity] ∧
     ∃ s', m' !! from_id context = Some s' ∧ currentStage s' = complete).
Proof.
  intros Hd Hstage Htext Hne. cbn zeta.
  destruct (run_message context env m) as [Hm Hsent]. cbn zeta in Hm, Hsent.
  rewrite Htext, processUserMessage_state_text in Hm, Hsent by done.
  rewrite Hm, Hsent. clear Hm Hsent.
  set (s := session_of (from_id context) m) in *.
  unfold try_catch. rewrite dispatch_closing by done.
  rewrite completeInterview_run by done. unfold entering. cbn [session registered outbox].
  rewrite (report_loop_ext (push_history user userText s) s) by done.
  change (report_stages (push_history user userText s)) with (report_stages s).
  pose proof (report_loop_reportable s no_totals (report_stages s)) as Hrep.
  fold (reportable s) in Hrep.
  destruct (report_loop s no_totals (report_stages s)) as [totals|];
    cbn [returns] in Hrep; rewrite <- Hrep.
  - cbn [fst snd session registered outbox app]. rewrite lookup_delete_eq.
    split; [done|]. split; [|done]. intros _. exists totals. split; [done|].
    unfold summaryText, finalSsml. by ssimpl.
  - hsimpl. unfold delivering in Hd. rewrite ?Hd.
    cbn [fst snd session registered outbox app]. rewrite lookup_insert_eq.
    split; [split; done|]. split; [done|]. intros _.
    split; [done|]. eexists. split; [done|]. done.
Qed.

(** X19: the question budget is an invariant of every activity but a
    late join. From any store whose sessions are within the budget,
    along any trace in which no participant-joined activity reaches a
    session that is already in [closing] or [complete], every session
    keeps [questionCount ≤ maxQuestions], with the count strictly below
    the bound as long as the session has not reached [closing]. *)
Theorem X19_question_budget_is_kept trace m :
  (∀ uid s, m !! uid = Some s → within_budget s) → no_late_join trace m →
  ∀ uid s, run_all trace m !! uid = Some s → within_budget s.
Proof.
  revert m. induction trace as [|[a env] rest IH]; intros m Hall Hno;
    cbn [run_all no_late_join] in *; [done|].
  destruct Hno as [Hjoin Hrest]. apply IH; [|done]. by apply run_budget.
Qed.

End Bot.

(** ** The properties on concrete runs

    The candidate [ann], the collaborators of [Sample], and the stores
    that her interview goes through. *)

Abbreviation sample_run_all :=
  (run_all Sample.JSON_parse Sample.Number_toString Sample.AVAILABLE_JDS).
Abbreviation sample_after :=
  (sessions_after Sample.JSON_parse Sample.Number_toString Sample.AVAILABLE_JDS).
Abbreviation sample_sent :=
  (sent_during Sample.JSON_parse Sample.Number_toString Sample.AVAILABLE_JDS).
Abbreviation sample_session := (session_of Sample.AVAILABLE_JDS "ann").
Abbreviation sample_turn m :=
  {| session := session_of Sample.AVAILABLE_JDS "ann" m; registered := true; outbox := [] |}.
Abbreviation sample_dispatch := (dispatch Sample.JSON_parse Sample.Number_toString).
Abbreviation sample_processUserMessage_state :=
  (processUserMessage_state Sample.JSON_parse Sample.Number_toString).
Abbreviation says text := (MessageActivity (Sample.says text)).
Abbreviation store_joined :=
  (sample_run_all [(ConversationUpdate Sample.joined, Sample.good)] ∅).
Abbreviation store_opened := (sample_run_all Sample.opening ∅).
Abbreviation store_selected := (sample_run_all Sample.selecting ∅).
Abbreviation store_closing := (sample_run_all Sample.interview ∅).
Abbreviation store_null_entity := (sample_run_all Sample.interview_null_entity ∅).
Abbreviation stage_count_max :=
  (fun s : InterviewState => (currentStage s, questionCount s, maxQuestions s)).

(** C1: the code lets the count pass the bound. After a whole interview
    the session is in [closing] with five questions counted out of five;
    if the candidate joins again at that point, the welcome puts the stage
    back to [jd_selection] and keeps the count, a sixth dynamic question
    is asked, and its answer brings the count to six. *)
Theorem C1_rejoin_exceeds_maxQuestions :
  stage_count_max <$> (sample_run_all Sample.interview ∅ !! "ann") = Some (closing, 5, 5) ∧
  stage_count_max <$> (sample_run_all (Sample.interview ++ Sample.opening) ∅ !! "ann")
    = Some (pre_screen, 5, 5) ∧
  stage_count_max <$> (sample_run_all Sample.rejoined ∅ !! "ann") = Some (closing, 6, 5).
Proof. vm_compute. done. Qed.

(** C2: the code lets the stage move backward. After a whole interview
    the session is in [closing]; if the candidate joins again at that
    point, the welcome runs on the stored session and sets the stage to
    [jd_selection], four stages back. The same happens to a session that
    a failed report has left in [complete]: the welcome takes it out of
    [complete], back to [jd_selection]. *)
Theorem C2_rejoin_moves_stage_back :
  currentStage <$> (store_closing !! "ann") = Some closing ∧
  currentStage <$>
    (sample_after (ConversationUpdate Sample.joined) Sample.good store_closing !! "ann")
    = Some jd_selection ∧
  stage_rank jd_selection < stage_rank closing ∧
  currentStage <$>
    (sample_after (says "thank you, bye") Sample.good store_null_entity !! "ann")
    = Some complete ∧
  currentStage <$>
    (sample_after (ConversationUpdate Sample.joined) Sample.good
       (sample_after (says "thank you, bye") Sample.good store_null_entity) !! "ann")
    = Some jd_selection.
Proof. vm_compute. repeat split; lia. Qed.

(** C8: the code can leave a completed session in the store. When the
    summary cannot be built (here: an assessment listed [null] among the
    entities, so that reading its [text] throws), [completeInterview] has
    already set the stage to [complete] and never reaches the removal: the
    candidate gets the error message, the entry stays, and every later
    text is answered with "Your interview has been completed", no new
    session being started. *)
Theorem C8_fault_leaves_completed_session :
  currentStage <$> (store_null_entity !! "ann") = Some closing ∧
  sample_sent (says "thank you, bye") Sample.good store_null_entity = [error_activity] ∧
  currentStage <$> (sample_after (says "thank you, bye") Sample.good store_null_entity !! "ann")
    = Some complete ∧
  sample_sent (says "hello again") Sample.good
    (sample_after (says "thank you, bye") Sample.good store_null_entity)
    = [spoken completed_text] ∧
  currentStage <$>
    (sample_after (says "hello again") Sample.good
       (sample_after (says "thank you, bye") Sample.good store_null_entity) !! "ann")
    = Some complete.
Proof. vm_compute. done. Qed.




Lemma C5_witness :
  "the first one" ≠ EmptyString ∧
  currentStage (session (sample_turn store_joined)) = jd_selection ∧
  currentStage
    (session (sample_processUserMessage_state (Some "the first one") Sample.good
                (sample_turn store_joined)).2) = name_prompt.
Proof.
  assert ("the first one" ≠ EmptyString) as H1 by discriminate.
  assert (currentStage (session (sample_turn store_joined)) = jd_selection) as H2
    by (vm_compute; reflexivity).
  split; [exact H1|]. split; [exact H2|].
  refine (proj1 (proj1 (proj2 (proj2
    (C5_selection_is_validated Sample.JSON_parse Sample.Number_toString "the first one"
       Sample.good (sample_turn store_joined) H1 H2)))
    (Some "dev.txt") "dev.txt" eq_refl _)).
  repeat split; [|discriminate..].
  refine (bool_decide_unpack _ _). vm_compute. exact I.
Defined.

(** C5 as stated fails: when the selection call throws, what is sent is
    the error message, and no re-prompt with the selection range. *)
Lemma C5_failed_call_sends_no_reprompt :
  selection_reply Sample.env_down = Throws ∧
  sample_sent (says "the first one") Sample.env_down store_joined = [error_activity] ∧
  ¬ spoken (selection_reprompt (sample_session store_joined))
    ∈ sample_sent (says "the first one") Sample.env_down store_joined.
Proof.
  assert (sample_sent (says "the first one") Sample.env_down store_joined = [error_activity])
    as Hsent by (vm_compute; reflexivity).
  split; [reflexivity|]. split; [exact Hsent|].
  rewrite Hsent. intros Hin. apply list_elem_of_singleton in Hin.
  vm_compute in Hin. discriminate Hin.
Qed.

Lemma C6_witness :
  blank (activity_text (Sample.says "   ")) ∧
  sample_after (says "   ") Sample.good store_opened = store_opened.
Proof.
  assert (blank (activity_text (Sample.says "   "))) as H by reflexivity.
  split; [exact H|].
  refine (proj2 (proj2 (C6_blank_text_changes_nothing Sample.JSON_parse Sample.Number_toString
    Sample.AVAILABLE_JDS (Sample.says "   ") Sample.good store_opened H))
    (sample_session store_opened) _).
  vm_compute. reflexivity.
Defined.

Lemma C7_witness :
  "thank you, bye" ≠ EmptyString ∧
  (sample_dispatch "thank you, bye" Sample.good
     (entering "thank you, bye" (sample_turn store_null_entity))).1 = Throws ∧
  outbox (sample_processUserMessage_state (Some "thank you, bye") Sample.good
            (sample_turn store_null_entity)).2
  = outbox (sample_dispatch "thank you, bye" Sample.good
              (entering "thank you, bye" (sample_turn store_null_entity))).2
    ++ [error_activity].
Proof.
  assert ("thank you, bye" ≠ EmptyString) as H1 by discriminate.
  assert ((sample_dispatch "thank you, bye" Sample.good
             (entering "thank you, bye" (sample_turn store_null_entity))).1 = Throws) as H2
    by (vm_compute; reflexivity).
  split; [exact H1|]. split; [exact H2|].
  exact (proj1 (proj2
    (C7_fault_is_caught_not_rolled_back Sample.JSON_parse Sample.Number_toString
       "thank you, bye" Sample.good (sample_turn store_null_entity) H1 H2))).
Defined.

(** C7 as stated fails: a fault inside the turn does not leave the session
    as it was. Here the summary cannot be built; the turn started in
    [closing] and ends in [complete]. *)
Lemma C7_fault_changes_the_session :
  (sample_dispatch "thank you, bye" Sample.good
     (entering "thank you, bye" (sample_turn store_null_entity))).1 = Throws ∧
  currentStage <$> (store_null_entity !! "ann") = Some closing ∧
  currentStage <$> (sample_after (says "thank you, bye") Sample.good store_null_entity !! "ann")
    = Some complete ∧
  sample_after (says "thank you, bye") Sample.good store_null_entity !! "ann"
    ≠ store_null_entity !! "ann".
Proof.
  split; [vm_compute; reflexivity|]. split; [vm_compute; reflexivity|].
  split; [vm_compute; reflexivity|].
  intros H. apply (f_equal (fmap currentStage)) in H. vm_compute in H. discriminate H.
Qed.

Lemma C9_witness :
  spoken fixedFlow.name_prompt_question
    ∈ sample_sent (says "the first one") Sample.good store_joined ∧
  speak (spoken fixedFlow.name_prompt_question)
  = Some (wrap (escape (text (spoken fixedFlow.name_prompt_question)))).
Proof.
  assert (spoken fixedFlow.name_prompt_question
            ∈ sample_sent (says "the first one") Sample.good store_joined) as H.
  { refine (bool_decide_unpack _ _). vm_compute. exact I. }
  split; [exact H|].
  destruct (proj2 (C9_spoken_form_of_every_message Sample.JSON_parse Sample.Number_toString
    Sample.AVAILABLE_JDS (says "the first one") Sample.good store_joined
    (spoken fixedFlow.name_prompt_question) H)) as [Hd|Hw]; [exact Hd|].
  vm_compute. reflexivity.
Defined.

(** C9 as stated fails: the error message is sent with markup that is not
    derived from its text. *)
Lemma C9_error_markup_is_not_derived :
  error_activity ∈ sample_sent (says "the first one") Sample.env_down store_joined ∧
  speak error_activity ≠ Some (wrap (escape (text error_activity))).
Proof.
  split.
  - refine (bool_decide_unpack _ _). vm_compute. exact I.
  - vm_compute. intros H. discriminate H.
Qed.

Lemma C10_witness :
  currentStage (sample_session ∅) = greeting ∧
  currentStage <$> (sample_after (says "hello") Sample.good ∅ !! "ann") = Some greeting.
Proof.
  assert (currentStage (sample_session ∅) = greeting) as H by reflexivity.
  split; [exact H|].
  destruct (proj1 (C10_text_never_leaves_greeting Sample.JSON_parse Sample.Number_toString
    Sample.AVAILABLE_JDS "ann" ∅ H) (Sample.says "hello") Sample.good "hello"
    eq_refl eq_refl ltac:(discriminate)) as [Hs _].
  rewrite Hs. reflexivity.
Defined.

(** ** The further properties on concrete runs *)

Lemma delivering_good : delivering Sample.good.
Proof. intros n a. reflexivity. Defined.

Lemma X5_witness :
  delivering Sample.good ∧
  (sample_processUserMessage_state (Some "the first one") Sample.good
     (sample_turn store_joined)).1 = Returns ().
Proof.
  split; [exact delivering_good|].
  exact (proj1 (X5_one_reply_per_turn Sample.JSON_parse Sample.Number_toString
                  (Some "the first one") Sample.good (sample_turn store_joined)
                  delivering_good)).
Defined.

Lemma X6_witness :
  currentStage (session (sample_turn store_selected)) = name_prompt ∧
  candidateName
    (session (sample_processUserMessage_state (Some "I am Ann Lee") Sample.good
                (sample_turn store_selected)).2) = Some "Ann Lee".
Proof.
  assert ("I am Ann Lee" ≠ EmptyString) as H1 by discriminate.
  assert (currentStage (session (sample_turn store_selected)) = name_prompt) as H2
    by (vm_compute; reflexivity).
  split; [exact H2|].
  exact (proj1 (X6_name_extraction Sample.JSON_parse Sample.Number_toString "I am Ann Lee"
                  Sample.good (sample_turn store_selected) H1 H2)).
Defined.

Lemma X8_witness :
  currentStage (session (sample_turn store_opened)) = pre_screen ∧
  responses
    (session (sample_processUserMessage_state (Some "my background") Sample.good
                (sample_turn store_opened)).2)
    !! "pre_screen_raw_response" = Some (JStr "my background").
Proof.
  assert ("my background" ≠ EmptyString) as H1 by discriminate.
  assert (currentStage (session (sample_turn store_opened)) = pre_screen) as H2
    by (vm_compute; reflexivity).
  split; [exact H2|].
  exact (X8_raw_answer_is_recorded Sample.JSON_parse Sample.Number_toString "my background"
           Sample.good (sample_turn store_opened) H1 (or_introl H2)).
Defined.

Lemma X10_witness :
  run Sample.JSON_parse Sample.Number_toString Sample.AVAILABLE_JDS
    (ConversationUpdate Sample.bot_joined) Sample.good store_opened
  = (Returns (), store_opened, []).
Proof.
  apply (X10_bot_joining_alone_is_ignored Sample.JSON_parse Sample.Number_toString
           Sample.AVAILABLE_JDS Sample.bot_joined Sample.good store_opened).
  repeat constructor.
Defined.

Lemma X11_witness :
  sample_run_all Sample.interview (<["bob" := new_state Sample.AVAILABLE_JDS]> ∅) !! "bob"
  = Some (new_state Sample.AVAILABLE_JDS).
Proof.
  rewrite (X11_sessions_are_isolated Sample.JSON_parse Sample.Number_toString
             Sample.AVAILABLE_JDS Sample.interview
             (<["bob" := new_state Sample.AVAILABLE_JDS]> ∅) "bob").
  - apply lookup_insert_eq.
  - repeat constructor; discriminate.
Defined.

Lemma X12_witness :
  scores
    (session (handleGPTResponseAnalysis Sample.JSON_parse "my background" Sample.good
                (sample_turn store_opened)).2)
    (assessment_stage (session (sample_turn store_opened)))
  = (Z2F 4, Z2F 5).
Proof.
  refine (proj1 (X12_assessment_round_trip Sample.JSON_parse "my background" Sample.good
                   (sample_turn store_opened) (Some (Sample.assessment_json "4" "5" "[]"))
                   [("ClarityScore", JNum 4); ("RelevanceScore", JNum 5);
                    ("Summary", JStr "Good."); ("ExtractedEntities", JArr [])]
                   4 5 eq_refl _ eq_refl _ eq_refl _)).
  - vm_compute. reflexivity.
  - lia.
  - lia.
Defined.

Lemma X14_witness :
  validateEnvironment Sample.process_env = inr () ∧
  availableJDs (getUserState Sample.AVAILABLE_JDS "ann" ∅).1 ≠ [].
Proof.
  assert (validateEnvironment Sample.process_env = inr ()) as H1 by (vm_compute; reflexivity).
  assert (Sample.AVAILABLE_JDS = Sample.process_env !! "AVAILABLE_JDS") as H2
    by (vm_compute; reflexivity).
  split; [exact H1|].
  exact (proj1 (X14_validated_sessions_have_job_descriptions Sample.AVAILABLE_JDS
                  Sample.process_env "ann" ∅ H1 H2 (lookup_empty "ann"))).
Defined.

Lemma X15_witness :
  blob_download Sample.env_no_blob "dev.txt" = Throws ∧
  jdContent
    (session (sample_processUserMessage_state (Some "the first one") Sample.env_no_blob
                (sample_turn store_joined)).2)
  = "JD Fetch Failed for dev.txt. Default Role: Senior Consultant. Key Skills: Leadership, Project Management, Azure.".
Proof.
  assert ("the first one" ≠ EmptyString) as H1 by discriminate.
  assert (currentStage (session (sample_turn store_joined)) = jd_selection) as H2
    by (vm_compute; reflexivity).
  assert (accepted (session (sample_turn store_joined)) (Some "dev.txt") "dev.txt") as H3.
  { repeat split; [|discriminate..]. refine (bool_decide_unpack _ _). vm_compute. exact I. }
  split; [reflexivity|].
  exact (proj1 (proj2 (proj2
    (X15_job_description_falls_back Sample.JSON_parse Sample.Number_toString "the first one"
       Sample.env_no_blob (sample_turn store_joined) (Some "dev.txt") "dev.txt"
       H1 H2 eq_refl H3)))).
Defined.

Lemma X16_witness :
  ∃ s', run Sample.JSON_parse Sample.Number_toString Sample.AVAILABLE_JDS
          (ConversationUpdate Sample.joined) Sample.good ∅
        = (Returns (), <["ann" := s']> ∅,
           welcome_activities (new_state Sample.AVAILABLE_JDS)) ∧
        currentStage s' = jd_selection.
Proof.
  assert (newcomers Sample.joined ≠ []) as H1 by (vm_compute; discriminate).
  destruct (X16_welcome_restarts_the_stage_only Sample.JSON_parse Sample.Number_toString
              Sample.AVAILABLE_JDS Sample.joined Sample.good ∅ delivering_good H1)
    as (s' & Hrun & Hstage & _).
  exists s'. split; [|exact Hstage].
  rewrite Hrun. reflexivity.
Defined.

Lemma X17_witness :
  ∃ reply,
    outbox (sample_processUserMessage_state (Some "the first one") Sample.good
              (sample_turn store_joined)).2 = [reply] ∧
    text reply = fixedFlow.name_prompt_question.
Proof.
  assert ("the first one" ≠ EmptyString) as H1 by discriminate.
  assert (currentStage (session (sample_turn store_joined)) = jd_selection) as H2
    by (vm_compute; reflexivity).
  destruct (X17_history_mirrors_dialogue Sample.JSON_parse Sample.Number_toString
              "the first one" Sample.good (sample_turn store_joined) delivering_good H1
              (or_introl H2)) as (reply & Hout & _).
  exists reply. split; [exact Hout|].
  vm_compute in Hout. injection Hout as <-. vm_compute. reflexivity.
Defined.

Lemma X18_witness :
  currentStage (session_of Sample.AVAILABLE_JDS "ann" store_closing) = closing ∧
  reportable (session_of Sample.AVAILABLE_JDS "ann" store_closing) = true ∧
  sample_after (says "thank you, bye") Sample.good store_closing !! "ann" = None.
Proof.
  assert ("thank you, bye" ≠ EmptyString) as H1 by discriminate.
  assert (currentStage (session_of Sample.AVAILABLE_JDS "ann" store_closing) = closing) as H2
    by (vm_compute; reflexivity).
  assert (reportable (session_of Sample.AVAILABLE_JDS "ann" store_closing) = true) as H3
    by (vm_compute; reflexivity).
  split; [exact H2|]. split; [exact H3|].
  exact (proj2 (proj1 (X18_interview_is_cleared_when_reportable Sample.JSON_parse
                  Sample.Number_toString Sample.AVAILABLE_JDS (Sample.says "thank you, bye")
                  Sample.good store_closing "thank you, bye" delivering_good H2 eq_refl H1))
           H3).
Defined.

Lemma X19_witness :
  ∃ s, store_closing !! "ann" = Some s ∧ within_budget s.
Proof.
  eexists. split; [vm_compute; reflexivity|].
  apply (X19_question_budget_is_kept Sample.JSON_parse Sample.Number_toString
           Sample.AVAILABLE_JDS Sample.interview ∅) with (uid := "ann").
  - intros uid s H. rewrite lookup_empty in H. discriminate H.
  - vm_compute. repeat split; intros H; first [exact H | lia].
  - vm_compute. reflexivity.
Defined.

Lemma X20_witness :
  ∃ s', sample_after (says "the first one") Sample.good store_joined !! "ann" = Some s' ∧
        stage_rank (currentStage (sample_session store_joined)) ≤ stage_rank (currentStage s').
Proof.
  eexists. split; [vm_compute; reflexivity|].
  apply (proj1 (X20_message_turn_moves_stage_forward Sample.JSON_parse Sample.Number_toString
                  Sample.AVAILABLE_JDS (Sample.says "the first one") Sample.good
                  store_joined "ann")).
  vm_compute. reflexivity.
Defined.
